(** * Lane-change controllers and Bay Bridge coordinators of flow

    Shallow embedding of
    - [flow/controllers/lane_change_controllers.py]: the two
      [StochasticLaneChanger] classes, the [stochastic_lane_changer]
      closure, [AggressiveLaneChanger] and [SafeAggressiveLaneChanger];
    - [flow/envs/bay_bridge/base.py]: [BayBridgeEnv._apply_toll_bridge_control],
      [BayBridgeEnv.ramp_meter_lane_change_control], and around them
      [BayBridgeEnv.additional_command], [__init__] and [compute_reward].

    Simulator floats are modelled as rationals [Q]; lane indices as [nat].
    Python operations that can raise (indexing out of range, [max] of an
    empty list, a missing dictionary key) return [None]; [np.mean] of an
    empty list (NaN) is also reported as [None]. *)

From Stdlib Require Import String Ascii List ZArith QArith Qround Qabs Bool Lia.
Import ListNotations.

(** ** Python helpers shared by the controllers *)
Module Py.

(** [a < b] on floats. *)
Definition qltb (a b : Q) : bool := negb (Qle_bool b a).

(** [a % b] on floats (floor modulo, result has the sign of [b]). *)
Definition py_mod (a b : Q) : Q := a - b * inject_Z (Qfloor (a / b)).

(** Python truthiness of a vehicle id returned by the simulator:
    [None] and the empty string are false. *)
Definition truthy_id (o : option string) : option string :=
  match o with
  | Some s => if String.eqb s EmptyString then None else Some s
  | None => None
  end.

(** [max(l)]: keeps the current maximum unless an item is strictly larger;
    raises on the empty list. *)
Definition py_max (l : list Q) : option Q :=
  match l with
  | [] => None
  | x :: r => Some (fold_left (fun m y => if qltb m y then y else m) r x)
  end.

(** [l.index(x)]: first position holding a value equal to [x]. *)
Fixpoint py_index (l : list Q) (x : Q) : option nat :=
  match l with
  | [] => None
  | y :: r => if Qeq_bool y x then Some O
              else option_map S (py_index r x)
  end.

(** [np.argmax(l)]: position of the first occurrence of the maximum. *)
Definition np_argmax (l : list Q) : option nat :=
  match py_max l with
  | Some m => py_index l m
  | None => None
  end.

(** [np.mean(l)]; the empty list gives NaN, reported as [None]. *)
Definition np_mean (l : list Q) : option Q :=
  match l with
  | [] => None
  | _ => Some (fold_left Qplus l 0 / inject_Z (Z.of_nat (length l)))
  end.

(** Collects the per-lane values; any NaN lane is reported as [None]. *)
Fixpoint all_some {A} (l : list (option A)) : option (list A) :=
  match l with
  | [] => Some []
  | Some x :: r => option_map (cons x) (all_some r)
  | None :: _ => None
  end.

End Py.
Import Py.

(** ** The environment queries used by the lane-change controllers *)
Module LaneChange.

Record Env := mkEnv {
  scenario_lanes : nat;                        (* env.scenario.lanes *)
  scenario_length : Q;                         (* env.scenario.length *)
  get_leader : string -> option string;        (* env.vehicles.get_leader *)
  get_follower : string -> option string;      (* env.vehicles.get_follower *)
  get_leading_car : string -> nat -> option string;   (* env.get_leading_car *)
  get_trailing_car : string -> nat -> option string;  (* env.get_trailing_car *)
  get_x_by_id : string -> Q;                   (* env.get_x_by_id *)
  max_speed : string -> Q;                     (* vehicle's 'max_speed' *)
  get_speed : string -> Q;                     (* env.vehicles.get_speed *)
  get_lane : string -> nat;                    (* vehicle's 'lane' *)
  get_cars : string -> Q -> Q -> nat -> list string;  (* env.get_cars *)
  get_leader_blocker_headways : string -> list Q * list Q
}.

(** Constructor parameters of the stochastic lane changer. *)
Record StochParams := mkStochParams {
  speedThreshold : Q; prob : Q; dxBack : Q; dxForward : Q;
  gapBack : Q; gapForward : Q
}.

(** The defaults of [__init__]. *)
Definition default_params : StochParams :=
  mkStochParams 5 (1#2) 0 60 10 5.

(** Final lane choice shared by the stochastic controllers (lines 96-108):
    [draw] is the value of [random.random()]. *)
Definition choose_lane (p : StochParams) (v : list Q) (cur : nat) (draw : Q)
  : option nat :=
  match py_max v with
  | None => None
  | Some maxv =>
    match py_index v maxv with
    | None => None
    | Some maxl =>
      match nth_error v cur with
      | None => None
      | Some myv =>
        if negb (Nat.eqb maxl cur) && qltb (speedThreshold p) (maxv - myv)
           && qltb draw (prob p)
        then Some maxl else Some cur
      end
    end
  end.

(** First [StochasticLaneChanger] class (lines 42-108). *)
Module StochasticLaneChanger1.

Definition lane_speed (p : StochParams) (env : Env) (veh_id : string)
  (lane : nat) : option Q :=
  let leadID := get_leader env veh_id in
  let trailID := get_follower env veh_id in
  match truthy_id leadID, truthy_id trailID with
  | Some l, Some t =>
    let leadPos := get_x_by_id env l in
    let trailPos := get_x_by_id env t in
    let thisPos := get_x_by_id env veh_id in
    let headway := py_mod (leadPos - thisPos) (scenario_length env) in
    let footway := py_mod (thisPos - trailPos) (scenario_length env) in
    if qltb headway (gapForward p) || qltb footway (gapBack p) then Some 0
    else np_mean (map (get_speed env)
                      (get_cars env veh_id (dxBack p) (dxForward p) lane))
  | _, _ => Some (max_speed env veh_id)
  end.


Definition lane_speeds (p : StochParams) (env : Env) (veh_id : string)
  : option (list Q) :=
  all_some (map (lane_speed p env veh_id) (seq 0 (scenario_lanes env))).

Definition get_action (p : StochParams) (env : Env) (veh_id : string)
  (draw : Q) : option nat :=
  match lane_speeds p env veh_id with
  | None => None
  | Some v => choose_lane p v (get_lane env veh_id) draw
  end.

End StochasticLaneChanger1.

(** Second [StochasticLaneChanger] class (lines 111-177), which shadows
    the first one in the module. *)
Module StochasticLaneChanger2.

Definition lane_speed (p : StochParams) (env : Env) (veh_id : string)
  (lane : nat) : option Q :=
  let leadID := get_leader env veh_id in
  let trailID := get_follower env veh_id in
  match truthy_id leadID, truthy_id trailID with
  | Some l, Some t =>
    let leadPos := get_x_by_id env l in
    let trailPos := get_x_by_id env t in
    let thisPos := get_x_by_id env veh_id in
    let headway := py_mod (leadPos - thisPos) (scenario_length env) in
    let footway := py_mod (thisPos - trailPos) (scenario_length env) in
    if qltb headway (gapForward p) || qltb footway (gapBack p) then Some 0
    else np_mean (map (get_speed env)
                      (get_cars env veh_id (dxBack p) (dxForward p) lane))
  | _, _ => Some (max_speed env veh_id)
  end.

Definition lane_speeds (p : StochParams) (env : Env) (veh_id : string)
  : option (list Q) :=
  all_some (map (lane_speed p env veh_id) (seq 0 (scenario_lanes env))).

Definition get_action (p : StochParams) (env : Env) (veh_id : string)
  (draw : Q) : option nat :=
  match lane_speeds p env veh_id with
  | None => None
  | Some v => choose_lane p v (get_lane env veh_id) draw
  end.

End StochasticLaneChanger2.

(** The closure returned by [stochastic_lane_changer] (lines 247-315):
    it asks for the leader and follower of [carID] in each [lane]. *)
Module StochasticClosure.

Definition lane_speed (p : StochParams) (env : Env) (carID : string)
  (lane : nat) : option Q :=
  let leadID := get_leading_car env carID lane in
  let trailID := get_trailing_car env carID lane in
  match truthy_id leadID, truthy_id trailID with
  | Some l, Some t =>
    let leadPos := get_x_by_id env l in
    let trailPos := get_x_by_id env t in
    let thisPos := get_x_by_id env carID in
    let headway := py_mod (leadPos - thisPos) (scenario_length env) in
    let footway := py_mod (thisPos - trailPos) (scenario_length env) in
    if qltb headway (gapForward p) || qltb footway (gapBack p) then Some 0
    else np_mean (map (get_speed env)
                      (get_cars env carID (dxBack p) (dxForward p) lane))
  | _, _ => Some (max_speed env carID)
  end.

Definition lane_speeds (p : StochParams) (env : Env) (carID : string)
  : option (list Q) :=
  all_some (map (lane_speed p env carID) (seq 0 (scenario_lanes env))).

Definition controller (p : StochParams) (carID : string) (env : Env)
  (draw : Q) : option nat :=
  match lane_speeds p env carID with
  | None => None
  | Some v => choose_lane p v (get_lane env carID) draw
  end.

End StochasticClosure.

(** [AggressiveLaneChanger.get_action] (lines 195-212). *)
Definition aggressive_get_action (target_velocity threshold : Q) (env : Env)
  (veh_id : string) : option nat :=
  let threshold_velocity := target_velocity * threshold in
  if qltb (get_speed env veh_id) threshold_velocity then
    let (headways, reverse_headways) :=
      get_leader_blocker_headways env veh_id in
    match np_argmax headways with
    | None => None
    | Some desired_lane =>
      match nth_error reverse_headways desired_lane with
      | None => None
      | Some r => if qltb r 5 then Some (get_lane env veh_id)
                  else Some desired_lane
      end
    end
  else Some (get_lane env veh_id).

(** Bounds of [SafeAggressiveLaneChanger]: [max(curr_lane-1,0)] and
    [min(curr_lane + 1, env.scenario.lanes) + 1]; the truncated [nat]
    subtraction agrees with Python's since the result is maxed with 0. *)
Definition safe_lo (curr_lane : nat) : nat := (Nat.max (curr_lane - 1) 0)%nat.
Definition safe_hi (curr_lane lanes : nat) : nat :=
  (Nat.min (curr_lane + 1) lanes + 1)%nat.

(** [list(range(lo, hi))] *)
Definition available_lanes (curr_lane lanes : nat) : list nat :=
  seq (safe_lo curr_lane) (safe_hi curr_lane lanes - safe_lo curr_lane)%nat.

(** [headways[lo:hi]] (Python slicing clamps to the list's length). *)
Definition available_headways (headways : list Q) (curr_lane lanes : nat)
  : list Q :=
  firstn (safe_hi curr_lane lanes - safe_lo curr_lane)%nat
         (skipn (safe_lo curr_lane) headways).

(** [SafeAggressiveLaneChanger.get_action] (lines 229-244). *)
Definition safe_aggressive_get_action (target_velocity threshold : Q)
  (env : Env) (veh_id : string) : option nat :=
  let threshold_velocity := target_velocity * threshold in
  if qltb (get_speed env veh_id) threshold_velocity then
    let (headways, reverse_headways) :=
      get_leader_blocker_headways env veh_id in
    let curr_lane := get_lane env veh_id in
    let lanes := scenario_lanes env in
    match np_argmax (available_headways headways curr_lane lanes) with
    | None => None
    | Some desired_available_lane =>
      match nth_error (available_lanes curr_lane lanes)
                      desired_available_lane with
      | None => None
      | Some desired_lane =>
        match nth_error reverse_headways desired_lane with
        | None => None
        | Some r => if qltb r 8 then Some (get_lane env veh_id)
                    else Some desired_lane
        end
      end
    end
  else Some (get_lane env veh_id).

End LaneChange.

(** ** The Bay Bridge toll and ramp-meter coordinators *)
Module BayBridge.

Definition EDGE_BEFORE_TOLL : string := "gneE3".
Definition TB_TL_ID : string := "gneJ4".
Definition EDGE_AFTER_TOLL : string := "340686911#0.54.0".
Definition NUM_TOLL_LANES : nat := 20.
Definition TOLL_BOOTH_AREA : Q := 100.

Definition EDGE_BEFORE_RAMP_METER : string := "340686911#0.54.54.0".
Definition EDGE_AFTER_RAMP_METER : string := "340686911#0.54.54.127.0".
Definition NUM_RAMP_METERS : nat := 14.
Definition RAMP_METER_AREA : Q := 80.

Definition MEAN_SECONDS_WAIT_AT_FAST_TRACK : Q := 3.
Definition MEAN_SECONDS_WAIT_AT_TOLL : Q := 15.
(** [lane in FAST_TRACK_ON], with [FAST_TRACK_ON = range(6, 11)]. *)
Definition in_fast_track (lane : nat) : bool :=
  (6 <=? lane)%nat && (lane <? 11)%nat.

(** An RGBA colour as handled by traci. *)
Definition Color : Type := (Z * Z * Z * Z)%type.

(** The value stored in the wait registries:
    [{"lane_change_mode": ..., "color": ...}]. *)
Record Saved := mkSaved { lane_change_mode : Z; color : Color }.

(** A Python dict from vehicle id to [Saved], in insertion order. *)
Definition Registry : Type := list (string * Saved).

Fixpoint dict_get (d : Registry) (k : string) : option Saved :=
  match d with
  | [] => None
  | (k', x) :: r => if String.eqb k k' then Some x else dict_get r k
  end.

Definition dict_mem (d : Registry) (k : string) : bool :=
  match dict_get d k with Some _ => true | None => false end.

Definition dict_keys (d : Registry) : list string := map fst d.

(** [d[k] = x]: replaces the value in place, or appends a new key. *)
Fixpoint dict_set (d : Registry) (k : string) (x : Saved) : Registry :=
  match d with
  | [] => [(k, x)]
  | (k', x') :: r => if String.eqb k k' then (k, x) :: r
                     else (k', x') :: dict_set r k x
  end.

(** [d.__delitem__(k)]: raises [KeyError] on a missing key. *)
Fixpoint dict_del (d : Registry) (k : string) : option Registry :=
  match d with
  | [] => None
  | (k', x') :: r => if String.eqb k k' then Some r
                     else option_map (cons (k', x')) (dict_del r k)
  end.

(** [l[i] = x] on a Python list or numpy array: raises out of range. *)
Fixpoint py_setitem {A} (l : list A) (i : nat) (x : A) : option (list A) :=
  match l, i with
  | [], _ => None
  | _ :: r, O => Some (x :: r)
  | y :: r, S i => option_map (cons y) (py_setitem r i x)
  end.

(** [max(a, b)]: [a] unless [b] is strictly larger. *)
Definition py_max2 (a b : Q) : Q := if qltb a b then b else a.

(** The commands sent through [traci_connection]. *)
Inductive Cmd :=
| SetColor (veh_id : string) (c : Color)
| SetLaneChangeMode (veh_id : string) (mode : Z)
| SetRedYellowGreenState (tlsID : string) (state : string).

(** The vehicle a command is sent to. *)
Definition cmd_veh (c : Cmd) : option string :=
  match c with
  | SetColor v _ | SetLaneChangeMode v _ => Some v
  | SetRedYellowGreenState _ _ => None
  end.

Definition is_tls_cmd (c : Cmd) : bool :=
  match c with SetRedYellowGreenState _ _ => true | _ => false end.

(** The commands of a trace sent to vehicle [v]. *)
Definition for_veh (v : string) (o : list Cmd) : list Cmd :=
  filter (fun c => match cmd_veh c with
                   | Some v' => String.eqb v v'
                   | None => false
                   end) o.

(** What the coordinators read of the simulator during one call. *)
Record Sim := mkSim {
  get_ids : list string;
  get_edge : string -> string;
  get_lane : string -> nat;
  get_position : string -> Q;
  (** [self.vehicles.get_lane_change_mode]: flow's vehicle table, which
      the traci calls below do not update *)
  get_lane_change_mode : string -> Z
}.

(** The state the coordinators mutate. *)
Record St := mkSt {
  cars_waiting_for_toll : Registry;
  cars_before_ramp : Registry;
  toll_wait_time : list Q;
  tl_state : string;
  traci_color : string -> Color;   (* what [vehicle.getColor] returns *)
  rng : nat                        (* draws taken from np.random *)
}.

Definition set_toll_registry (r : Registry) (s : St) : St :=
  mkSt r (cars_before_ramp s) (toll_wait_time s) (tl_state s)
       (traci_color s) (rng s).
Definition set_ramp_registry (r : Registry) (s : St) : St :=
  mkSt (cars_waiting_for_toll s) r (toll_wait_time s) (tl_state s)
       (traci_color s) (rng s).
Definition set_wait (w : list Q) (s : St) : St :=
  mkSt (cars_waiting_for_toll s) (cars_before_ramp s) w (tl_state s)
       (traci_color s) (rng s).
Definition set_tl_state (t : string) (s : St) : St :=
  mkSt (cars_waiting_for_toll s) (cars_before_ramp s) (toll_wait_time s) t
       (traci_color s) (rng s).
Definition set_color_of (v : string) (c : Color) (s : St) : St :=
  mkSt (cars_waiting_for_toll s) (cars_before_ramp s) (toll_wait_time s)
       (tl_state s)
       (fun x => if String.eqb x v then c else traci_color s x) (rng s).
Definition set_rng (n : nat) (s : St) : St :=
  mkSt (cars_waiting_for_toll s) (cars_before_ramp s) (toll_wait_time s)
       (tl_state s) (traci_color s) n.

(** State, error ([None] for a raised exception) and the list of traci
    commands sent. *)
Definition M (A : Type) : Type := St -> option (A * St * list Cmd).

Definition ret {A} (a : A) : M A := fun s => Some (a, s, []).
Definition bind {A B} (m : M A) (k : A -> M B) : M B :=
  fun s =>
    match m s with
    | None => None
    | Some (a, s1, o1) =>
      match k a s1 with
      | None => None
      | Some (b, s2, o2) => Some (b, s2, o1 ++ o2)
      end
    end.

Notation "x <- m ;; k" := (bind m (fun x => k))
  (at level 61, m at next level, right associativity).
Notation "m ;;; k" := (bind m (fun _ => k))
  (at level 61, right associativity).

Definition raise {A} : M A := fun _ => None.
Definition lift {A} (o : option A) : M A :=
  fun s => match o with Some a => Some (a, s, []) | None => None end.
Definition get : M St := fun s => Some (s, s, []).
Definition put (s' : St) : M unit := fun _ => Some (tt, s', []).

Definition setColor (v : string) (c : Color) : M unit :=
  fun s => Some (tt, set_color_of v c s, [SetColor v c]).
Definition getColor (v : string) : M Color :=
  fun s => Some (traci_color s v, s, []).
Definition setLaneChangeMode (v : string) (m : Z) : M unit :=
  fun s => Some (tt, s, [SetLaneChangeMode v m]).
Definition setRedYellowGreenState (tlsID state : string) : M unit :=
  fun s => Some (tt, s, [SetRedYellowGreenState tlsID state]).

Definition get_toll_wait (lane : nat) : M Q :=
  fun s => lift (nth_error (toll_wait_time s) lane) s.
Definition set_toll_wait (lane : nat) (w : Q) : M unit :=
  fun s => match py_setitem (toll_wait_time s) lane w with
           | Some l => Some (tt, set_wait l s, [])
           | None => None
           end.

Section Coordinator.

(** The simulator as seen during the call. *)
Variable sim : Sim.
(** [self.sim_step] *)
Variable sim_step : Q.
(** The standard normal draws behind [np.random.normal]. *)
Variable gauss : nat -> Q.

(** [np.random.normal(loc=loc, scale=scale)] *)
Definition np_random_normal (loc scale : Q) : M Q :=
  fun s => Some (loc + scale * gauss (rng s), set_rng (S (rng s)) s, []).

(** [self.edge_dict[edge][lane]] as built by [additional_command]: the
    pairs [(veh_id, pos)] of the vehicles on that edge and lane, in the
    order of [get_ids()]. *)
Definition edge_dict (edge : string) (lane : nat) : list (string * Q) :=
  map (fun v => (v, get_position sim v))
      (filter (fun v => String.eqb (get_edge sim v) edge
                        && Nat.eqb (get_lane sim v) lane) (get_ids sim)).

(** Lines 166-190: release the vehicles observed past the toll. *)
Fixpoint toll_release (keys : list string) : M (list string) :=
  match keys with
  | [] => ret []
  | veh_id :: rest =>
    left <- (if String.eqb (get_edge sim veh_id) EDGE_AFTER_TOLL then
               let lane := get_lane sim veh_id in
               s <- get ;;
               match dict_get (cars_waiting_for_toll s) veh_id with
               | None => raise
               | Some e =>
                 setColor veh_id (color e) ;;;
                 setLaneChangeMode veh_id (lane_change_mode e) ;;;
                 w <- (if negb (in_fast_track lane) then
                         np_random_normal
                           (MEAN_SECONDS_WAIT_AT_TOLL / sim_step)
                           (1 / sim_step)
                       else
                         np_random_normal
                           (MEAN_SECONDS_WAIT_AT_FAST_TRACK / sim_step)
                           (1 / sim_step)) ;;
                 set_toll_wait lane (py_max2 0 w) ;;;
                 ret [veh_id]
               end
             else ret []) ;;
    rest_left <- toll_release rest ;;
    ret (left ++ rest_left)
  end.

(** Lines 192-193. *)
Fixpoint toll_delete (ks : list string) : M unit :=
  match ks with
  | [] => ret tt
  | k :: r =>
    s <- get ;;
    match dict_del (cars_waiting_for_toll s) k with
    | None => raise
    | Some d => put (set_toll_registry d s)
    end ;;;
    toll_delete r
  end.

(** Lines 201-221: one car [(veh_id, pos)] of the approach edge. *)
Definition toll_car (lane : nat) (states : list string) (car : string * Q)
  : M (list string) :=
  let (veh_id, pos) := car in
  if qltb TOLL_BOOTH_AREA pos then
    s <- get ;;
    if negb (dict_mem (cars_waiting_for_toll s) veh_id) then
      let lc_mode := get_lane_change_mode sim veh_id in
      c <- getColor veh_id ;;
      s1 <- get ;;
      put (set_toll_registry
             (dict_set (cars_waiting_for_toll s1) veh_id (mkSaved lc_mode c))
             s1) ;;;
      setLaneChangeMode veh_id 512 ;;;
      setColor veh_id (255, 0, 255, 0)%Z ;;;
      ret states
    else if qltb 120 pos then
      w <- get_toll_wait lane ;;
      if qltb w 0 then lift (py_setitem states lane "G"%string)
      else
        states' <- lift (py_setitem states lane "r"%string) ;;
        set_toll_wait lane (w - 1) ;;;
        ret states'
    else ret states
  else ret states.

Fixpoint toll_cars (lane : nat) (states : list string)
  (cars : list (string * Q)) : M (list string) :=
  match cars with
  | [] => ret states
  | car :: rest => st <- toll_car lane states car ;; toll_cars lane st rest
  end.

(** Lines 197-221. *)
Fixpoint toll_lanes (lanes : list nat) (states : list string)
  : M (list string) :=
  match lanes with
  | [] => ret states
  | lane :: rest =>
    st <- toll_cars lane states (edge_dict EDGE_BEFORE_TOLL lane) ;;
    toll_lanes rest st
  end.

(** [BayBridgeEnv._apply_toll_bridge_control]; returns the light string
    built in this call. *)
Definition apply_toll_bridge_control : M string :=
  s <- get ;;
  cars_that_have_left <- toll_release (dict_keys (cars_waiting_for_toll s)) ;;
  toll_delete cars_that_have_left ;;;
  traffic_light_states <-
    toll_lanes (seq 0 NUM_TOLL_LANES) (repeat "G"%string NUM_TOLL_LANES) ;;
  let new_tls_state := String.concat "" traffic_light_states in
  s2 <- get ;;
  (if negb (String.eqb new_tls_state (tl_state s2)) then
     put (set_tl_state new_tls_state s2) ;;;
     setRedYellowGreenState TB_TL_ID new_tls_state
   else ret tt) ;;;
  ret new_tls_state.

(** Lines 130-140: release the vehicles observed past the ramp meter. *)
Fixpoint ramp_release (keys : list string) : M (list string) :=
  match keys with
  | [] => ret []
  | veh_id :: rest =>
    left <- (if String.eqb (get_edge sim veh_id) EDGE_AFTER_RAMP_METER then
               s <- get ;;
               match dict_get (cars_before_ramp s) veh_id with
               | None => raise
               | Some e =>
                 setColor veh_id (color e) ;;;
                 setLaneChangeMode veh_id (lane_change_mode e) ;;;
                 ret [veh_id]
               end
             else ret []) ;;
    rest_left <- ramp_release rest ;;
    ret (left ++ rest_left)
  end.

(** Lines 142-143. *)
Fixpoint ramp_delete (ks : list string) : M unit :=
  match ks with
  | [] => ret tt
  | k :: r =>
    s <- get ;;
    match dict_del (cars_before_ramp s) k with
    | None => raise
    | Some d => put (set_ramp_registry d s)
    end ;;;
    ramp_delete r
  end.

(** Lines 148-163: one car of the edge before the ramp meter; the
    membership test is made on [self.cars_waiting_for_toll]. *)
Definition ramp_car (car : string * Q) : M unit :=
  let (veh_id, pos) := car in
  if qltb RAMP_METER_AREA pos then
    s <- get ;;
    if negb (dict_mem (cars_waiting_for_toll s) veh_id) then
      let lane_change_mode := get_lane_change_mode sim veh_id in
      c <- getColor veh_id ;;
      s1 <- get ;;
      put (set_ramp_registry
             (dict_set (cars_before_ramp s1) veh_id
                       (mkSaved lane_change_mode c)) s1) ;;;
      setLaneChangeMode veh_id 512 ;;;
      setColor veh_id (0, 255, 255, 0)%Z
    else ret tt
  else ret tt.

Fixpoint ramp_cars (cars : list (string * Q)) : M unit :=
  match cars with
  | [] => ret tt
  | car :: rest => ramp_car car ;;; ramp_cars rest
  end.

Fixpoint ramp_lanes (lanes : list nat) : M unit :=
  match lanes with
  | [] => ret tt
  | lane :: rest =>
    ramp_cars (edge_dict EDGE_BEFORE_RAMP_METER lane) ;;; ramp_lanes rest
  end.

(** [BayBridgeEnv.ramp_meter_lane_change_control] *)
Definition ramp_meter_lane_change_control : M unit :=
  s <- get ;;
  cars_that_have_left <- ramp_release (dict_keys (cars_before_ramp s)) ;;
  ramp_delete cars_that_have_left ;;;
  ramp_lanes (seq 0 NUM_RAMP_METERS).

End Coordinator.

(** Every entry of a light list is "G" or "r". *)
Definition lights_ok (l : list string) : Prop :=
  Forall (fun x => x = "G"%string \/ x = "r"%string) l.

End BayBridge.

(** ** [BayBridgeEnv]: construction, [additional_command] and reward *)
Module BayBridgeEnv.
Import BayBridge.

Definition EDGE_LIST : list string := [
  "11198593"; "236348360#1"; "157598960"; "11415208"; "236348361";
  "11198599"; "35536683"; "11198595.0"; "11198595.656.0"; "gneE5";
  "340686911#3"; "23874736"; "119057701"; "517934789"; "236348364";
  "124952171"; "gneE0"; "11198599"; "124952182.0"; "236348360#0";
  "497579295"; "340686911#2.0"; "340686911#1"; "394443191"; "322962944";
  "32661309#1.0"; "90077193#1.777"; "90077193#1.0"; "90077193#1.812";
  "gneE1"; "183343422"; "393649534"; "32661316"; "4757680"; "124952179";
  "11189946"; "119058993"; "28413679"; "11197898"; "123741311"; "123741303";
  "90077193#0"; "28413687#0"; "28413687#1"; "11197889"; "123741382#0";
  "123741382#1"; "gneE3"; "340686911#0.54.0"; "340686911#0.54.54.0";
  "340686911#0.54.54.127.0"; "340686911#2.35"]%string.

Definition MAX_LANES : nat := 24.

(** One edge of [self.edge_dict]: a list of [MAX_LANES] lanes, each the list
    of [(veh_id, pos)] appended to it. *)
Definition Lanes : Type := list (list (string * Q)).

(** [self.edge_dict]: a dict from edge name to its lanes, in insertion
    order. *)
Definition EdgeDict : Type := list (string * Lanes).

Fixpoint ed_get (d : EdgeDict) (k : string) : option Lanes :=
  match d with
  | [] => None
  | (k', x) :: r => if String.eqb k k' then Some x else ed_get r k
  end.

(** [d[k] = x] *)
Fixpoint ed_set (d : EdgeDict) (k : string) (x : Lanes) : EdgeDict :=
  match d with
  | [] => [(k, x)]
  | (k', x') :: r => if String.eqb k k' then (k, x) :: r
                     else (k', x') :: ed_set r k x
  end.

(** [[[] for _ in range(MAX_LANES)]] *)
Definition empty_lanes : Lanes := repeat [] MAX_LANES.

(** [self.edge_dict.update((k, [[] for _ in range(MAX_LANES)]) for k in
    EDGE_LIST)] on a fresh [defaultdict(list)]. *)
Definition edge_dict_init : EdgeDict :=
  fold_left (fun d k => ed_set d k empty_lanes) EDGE_LIST [].

(** [l[i].append(x)]: raises [IndexError] when [i] is out of range. *)
Fixpoint py_append_at {A} (l : list (list A)) (i : nat) (x : A)
  : option (list (list A)) :=
  match l, i with
  | [], _ => None
  | y :: r, O => Some ((y ++ [x]) :: r)
  | y :: r, S i => option_map (cons y) (py_append_at r i x)
  end.

(** One iteration of the loop of [additional_command] (lines 104-115) on
    [veh_id]: the dictionary built so far and the vehicles for which
    [apply_lane_change([veh_id], direction=[1])] was called so far. *)
Definition edge_dict_add (sim : Sim) (acc : option (EdgeDict * list string))
  (veh_id : string) : option (EdgeDict * list string) :=
  match acc with
  | None => None
  | Some (d, lc) =>
    let edge := get_edge sim veh_id in
    let d1 := match ed_get d edge with
              | Some _ => d
              | None => ed_set d edge empty_lanes
              end in
    let lane := get_lane sim veh_id in
    let pos := get_position sim veh_id in
    match ed_get d1 edge with
    | None => None
    | Some lanes =>
      match py_append_at lanes lane (veh_id, pos) with
      | None => None
      | Some lanes' =>
        Some (ed_set d1 edge lanes',
              if String.eqb edge "124952171" && Nat.eqb lane 1
              then lc ++ [veh_id] else lc)
      end
    end
  end.

(** Lines 99-115: [self.edge_dict] as rebuilt by [additional_command], with
    the vehicles sent a lane change. *)
Definition build_edge_dict (sim : Sim) : option (EdgeDict * list string) :=
  fold_left (edge_dict_add sim) (get_ids sim) (Some (edge_dict_init, [])).

(** What [additional_command] issues: traci commands of the coordinators,
    and the calls [self.apply_lane_change(veh_ids, direction=...)]. *)
Inductive Action :=
| Traci (c : Cmd)
| ApplyLaneChange (veh_ids : list string) (direction : list Z).

(** [BayBridgeEnv.additional_command] (lines 85-120), after the parent
    class's [additional_command] (not part of this file).  The coordinators
    read [self.edge_dict[edge][lane]] as [edge_dict sim edge lane]; the
    dictionary built here is returned beside the new state. *)
Definition additional_command (sim : Sim) (sim_step : Q) (gauss : nat -> Q)
  (disable_tb disable_ramp_metering : bool) (s : St)
  : option (EdgeDict * St * list Action) :=
  match build_edge_dict sim with
  | None => None
  | Some (d, lc) =>
    let lane_changes := map (fun v => ApplyLaneChange [v] [1%Z]) lc in
    let step :=
      (if negb disable_tb
       then apply_toll_bridge_control sim sim_step gauss ;;; ret tt
       else ret tt) ;;;
      (if negb disable_ramp_metering
       then ramp_meter_lane_change_control sim
       else ret tt) in
    match step s with
    | None => None
    | Some (_, s', o) => Some (d, s', lane_changes ++ map Traci o)
    end
  end.

(** The state set by [BayBridgeEnv.__init__] (lines 65-83):
    [np.abs(np.random.normal(MEAN_SECONDS_WAIT_AT_TOLL / sim_step,
    4 / sim_step, NUM_TOLL_LANES))] takes the first [NUM_TOLL_LANES]
    standard normal draws; [color] is what traci reports. *)
Definition init_state (sim_step : Q) (gauss : nat -> Q)
  (color : string -> Color) : St :=
  mkSt [] []
       (map (fun i => Qabs (MEAN_SECONDS_WAIT_AT_TOLL / sim_step
                            + 4 / sim_step * gauss i))
            (seq 0 NUM_TOLL_LANES))
       "" color NUM_TOLL_LANES.

(** The states [self] goes through: the one set by [__init__], then one
    call of [additional_command] per simulation step, on whatever the
    simulator reports at that step.  [disable_tb] and
    [disable_ramp_metering] are fixed by [__init__]. *)
Inductive reachable (sim_step : Q) (gauss : nat -> Q) (color : string -> Color)
  (disable_tb disable_ramp_metering : bool) : St -> Prop :=
| reach_init :
    reachable sim_step gauss color disable_tb disable_ramp_metering
      (init_state sim_step gauss color)
| reach_step sim s d s' acts :
    reachable sim_step gauss color disable_tb disable_ramp_metering s ->
    additional_command sim sim_step gauss disable_tb disable_ramp_metering s
      = Some (d, s', acts) ->
    reachable sim_step gauss color disable_tb disable_ramp_metering s'.

(** [BayBridgeEnv.compute_reward] (lines 231-233):
    [np.mean(self.vehicles.get_speed(self.vehicles.get_ids()))]. *)
Definition compute_reward (ids : list string) (get_speed : string -> Q)
  : option Q :=
  np_mean (map get_speed ids).

End BayBridgeEnv.

(** ** Concrete environments for the stochastic controller *)
Module Scenarios.
Import LaneChange.

(** Ego in lane 0 of a two-lane ring of length 1000: its own leader [a]
    is 3 ahead and its own follower [b] 50 behind; in lane 1 the leader
    [c] is 80 ahead, the follower [d] 50 behind, and the cars seen in
    lane 1 ([c], [e]) drive at 12. *)
Definition gap_env : Env := {|
  scenario_lanes := 2;
  scenario_length := 1000;
  get_leader := fun v => if String.eqb v "ego" then Some "a"%string else None;
  get_follower := fun v => if String.eqb v "ego" then Some "b"%string else None;
  get_leading_car := fun v lane =>
    if String.eqb v "ego" then
      match lane with O => Some "a"%string | _ => Some "c"%string end
    else None;
  get_trailing_car := fun v lane =>
    if String.eqb v "ego" then
      match lane with O => Some "b"%string | _ => Some "d"%string end
    else None;
  get_x_by_id := fun v =>
    if String.eqb v "ego" then 100 else if String.eqb v "a" then 103
    else if String.eqb v "b" then 50 else if String.eqb v "c" then 180
    else if String.eqb v "e" then 150 else 50;
  max_speed := fun _ => 30;
  get_speed := fun v =>
    if String.eqb v "c" then 12 else if String.eqb v "e" then 12 else 0;
  get_lane := fun v =>
    if String.eqb v "c" || String.eqb v "d" || String.eqb v "e" then 1%nat
    else O;
  get_cars := fun _ _ _ lane =>
    match lane with O => ["ego"; "a"]%string | _ => ["c"; "e"]%string end;
  get_leader_blocker_headways := fun _ => ([], [])
|}.

(** Same ring with a clear neighbourhood (leader 40 ahead, follower 50
    behind): the cars seen in lane 0 are stopped, those in lane 1 drive
    at 12. *)
Definition stopped_lane_env : Env := {|
  scenario_lanes := 2;
  scenario_length := 1000;
  get_leader := fun v => if String.eqb v "ego" then Some "a"%string else None;
  get_follower := fun v => if String.eqb v "ego" then Some "b"%string else None;
  get_leading_car := fun _ _ => None;
  get_trailing_car := fun _ _ => None;
  get_x_by_id := fun v =>
    if String.eqb v "ego" then 100 else if String.eqb v "a" then 140
    else 50;
  max_speed := fun _ => 30;
  get_speed := fun v =>
    if String.eqb v "c" then 12 else if String.eqb v "e" then 12 else 0;
  get_lane := fun v =>
    if String.eqb v "c" || String.eqb v "e" then 1%nat else O;
  get_cars := fun _ _ _ lane =>
    match lane with O => ["ego"; "a"]%string | _ => ["c"; "e"]%string end;
  get_leader_blocker_headways := fun _ => ([], [])
|}.


(** Ego in the last lane (2) of three, slow (speed 1 against a threshold
    velocity 10 * 0.75): forward gaps 10, 50, 20 and rear gaps 10, 3, 10. *)
Definition blocked_env : Env := {|
  scenario_lanes := 3;
  scenario_length := 1000;
  get_leader := fun _ => None;
  get_follower := fun _ => None;
  get_leading_car := fun _ _ => None;
  get_trailing_car := fun _ _ => None;
  get_x_by_id := fun _ => 0;
  max_speed := fun _ => 30;
  get_speed := fun _ => 1;
  get_lane := fun _ => 2%nat;
  get_cars := fun _ _ _ _ => [];
  get_leader_blocker_headways := fun _ => ([10; 50; 20], [10; 3; 10])
|}.

End Scenarios.

(** ** Concrete simulator views for the Bay Bridge coordinators *)
Module BridgeScenarios.
Import BayBridge.

Definition toll_sim (ids : list string) (edge : string -> string)
  (lane : nat) (pos : string -> Q) : Sim :=
  mkSim ids edge (fun _ => lane) pos (fun _ => 1621%Z).
Definition yellow : Color := (255, 255, 0, 255)%Z.
Definition start_state (reg : Registry) (w : list Q) : St :=
  mkSt reg [] w "" (fun _ => yellow) 0.
Definition ramp_sim (edge : string) (pos : Q) : Sim :=
  toll_sim ["V1"%string] (fun _ => edge) 0 (fun _ => pos).

(** Two cars at the toll, both in lane 3: [V1] registered and 125 along the
    approach edge, [V2] registered and already on the edge after the toll. *)
Definition two_car_sim : Sim :=
  mkSim ["V1"; "V2"]%string
        (fun v => if String.eqb v "V2" then EDGE_AFTER_TOLL else EDGE_BEFORE_TOLL)
        (fun _ => 3%nat)
        (fun v => if String.eqb v "V2" then 5 else 125)
        (fun _ => 1621%Z).

Definition waiting_state : St :=
  start_state [("V1"%string, mkSaved 1621 yellow); ("V2"%string, mkSaved 7 yellow)]
              (repeat 40 NUM_TOLL_LANES).

End BridgeScenarios.

(** ** Facts about the Python helpers *)
Module PyFacts.

Lemma qltb_iff (a b : Q) : qltb a b = true <-> a < b.
Proof.
  unfold qltb. rewrite negb_true_iff. split; intro H.
  - apply Qnot_le_lt. intro Hle. apply Qle_bool_iff in Hle. congruence.
  - destruct (Qle_bool b a) eqn:E; [|reflexivity].
    apply Qle_bool_iff in E. exfalso. apply (Qlt_not_le a b); assumption.
Qed.

Lemma qltb_false (a b : Q) : qltb a b = false <-> b <= a.
Proof.
  unfold qltb. rewrite negb_false_iff. apply Qle_bool_iff.
Qed.

Lemma fold_max_spec (r : list Q) (x : Q) :
  let m := fold_left (fun m y => if qltb m y then y else m) r x in
  In m (x :: r) /\ forall z, In z (x :: r) -> z <= m.
Proof.
  revert x. induction r as [|y r IH]; intro x; simpl.
  - split; [left; reflexivity|]. intros z [<-|[]]. apply Qle_refl.
  - destruct (IH (if qltb x y then y else x)) as [Hin Hge].
    split.
    + destruct (qltb x y); simpl in Hin; tauto.
    + assert (Hx : x <= (if qltb x y then y else x)
                   /\ y <= (if qltb x y then y else x)).
      { destruct (qltb x y) eqn:E.
        - apply qltb_iff in E. split; [apply Qlt_le_weak|apply Qle_refl]; auto.
        - apply qltb_false in E. split; [apply Qle_refl|]; auto. }
      destruct Hx as [Hx Hy].
      intros z [<-|[<-|Hz]].
      * eapply Qle_trans; [exact Hx|]. apply Hge. left; reflexivity.
      * eapply Qle_trans; [exact Hy|]. apply Hge. left; reflexivity.
      * apply Hge. right; exact Hz.
Qed.

Lemma py_max_spec (l : list Q) (m : Q) :
  py_max l = Some m -> In m l /\ forall z, In z l -> z <= m.
Proof.
  destruct l as [|x r]; simpl; intro H; [discriminate|].
  injection H as <-. apply fold_max_spec.
Qed.

Lemma py_max_nonempty (l : list Q) : l <> [] -> exists m, py_max l = Some m.
Proof. destruct l; simpl; [congruence|eauto]. Qed.

Lemma py_index_spec (l : list Q) (x : Q) (i : nat) :
  py_index l x = Some i ->
  (exists y, nth_error l i = Some y /\ y == x)
  /\ forall j y, (j < i)%nat -> nth_error l j = Some y -> ~ y == x.
Proof.
  revert i. induction l as [|y r IH]; intros i H; simpl in H; [discriminate|].
  destruct (Qeq_bool y x) eqn:E.
  - injection H as <-. split.
    + exists y. split; [reflexivity|]. apply Qeq_bool_iff; exact E.
    + intros j z Hj. lia.
  - destruct (py_index r x) as [i'|] eqn:E'; simpl in H; [|discriminate].
    injection H as <-. destruct (IH i' eq_refl) as [[z [Hz Hzx]] Hlt].
    split.
    + exists z. split; assumption.
    + intros [|j] w Hj Hw; simpl in Hw.
      * injection Hw as <-. intro Hc. apply Qeq_bool_iff in Hc. congruence.
      * apply (Hlt j w); [lia|exact Hw].
Qed.

Lemma py_index_In (l : list Q) (x : Q) :
  In x l -> exists i, py_index l x = Some i.
Proof.
  induction l as [|y r IH]; simpl; intros H; [contradiction|].
  destruct (Qeq_bool y x) eqn:E; [eauto|].
  destruct H as [<-|H].
  - exfalso. assert (Qeq_bool y y = true) by (apply Qeq_bool_iff; reflexivity).
    congruence.
  - destruct (IH H) as [i Hi]. rewrite Hi. simpl. eauto.
Qed.

(** [np.argmax] returns a position of the list holding its maximum. *)
Lemma np_argmax_spec (l : list Q) (d : nat) :
  np_argmax l = Some d ->
  (d < length l)%nat /\
  exists hd, nth_error l d = Some hd /\
             forall i y, nth_error l i = Some y -> y <= hd.
Proof.
  unfold np_argmax. destruct (py_max l) as [m|] eqn:Hm; [|discriminate].
  intro Hi. destruct (py_max_spec l m Hm) as [_ Hge].
  destruct (py_index_spec l m d Hi) as [[y [Hy Hyx]] _].
  split; [apply nth_error_Some; congruence|].
  exists y. split; [exact Hy|]. intros i z Hz.
  rewrite Hyx. apply Hge. eapply nth_error_In; exact Hz.
Qed.

Lemma np_argmax_nonempty (l : list Q) :
  l <> [] -> exists d, np_argmax l = Some d.
Proof.
  intro Hne. destruct (py_max_nonempty l Hne) as [m Hm].
  unfold np_argmax. rewrite Hm.
  apply py_index_In. apply (py_max_spec l m Hm).
Qed.

Lemma nth_error_seq_inv (s n i d : nat) :
  nth_error (seq s n) i = Some d -> d = (s + i)%nat /\ (i < n)%nat.
Proof.
  revert s i. induction n as [|n IH]; intros s i H; simpl in H.
  - destruct i; discriminate.
  - destruct i as [|i]; simpl in H.
    + injection H as <-. lia.
    + destruct (IH (S s) i H) as [-> Hi]. lia.
Qed.

End PyFacts.
Import PyFacts.

(** ** Facts about the stochastic lane choice *)
Module LaneChangeFacts.
Import LaneChange.






End LaneChangeFacts.
Import LaneChangeFacts.

(** ** Claims on the lane-change controllers *)
Module LaneChangeClaims.
Import LaneChange Scenarios.

(** Claim C1: the scores of the stochastic class are not derived from each
    lane's own leader and follower.  In [gap_env] the ego's own leader is 3
    ahead (below gapForward = 5) while lane 1's leader is 80 ahead and the
    cars of lane 1 drive at 12.  The class asks [get_leader]/[get_follower]
    of the ego, whatever the lane, so both lanes score 0 and the vehicle
    stays in lane 0; the sibling closure [stochastic_lane_changer], which
    asks for the leader and follower in each lane, scores lane 1 with 12 and
    moves there. *)
Theorem stochastic_class_scores_ignore_lane :
  option_map (map Qred)
    (StochasticLaneChanger1.lane_speeds default_params gap_env "ego")
    = Some [0; 0]
  /\ option_map (map Qred)
       (StochasticClosure.lane_speeds default_params gap_env "ego")
     = Some [0; 12]
  /\ StochasticLaneChanger1.get_action default_params gap_env "ego" 0
     = Some O
  /\ StochasticClosure.controller default_params "ego" gap_env 0
     = Some 1%nat.
Proof. repeat split; vm_compute; reflexivity. Qed.



(** Claim C8: below its threshold velocity the aggressive controller takes
    the first lane with the largest forward gap; it returns the current
    lane when that lane's rear gap is below 5, and that lane otherwise. *)
Theorem aggressive_rear_gap_guard (target_velocity threshold : Q)
  (env : Env) (veh : string) (hw rv : list Q) :
  get_speed env veh < target_velocity * threshold ->
  get_leader_blocker_headways env veh = (hw, rv) ->
  hw <> [] -> length rv = length hw ->
  exists d r hd,
    np_argmax hw = Some d /\ nth_error hw d = Some hd /\
    (forall i y, nth_error hw i = Some y -> y <= hd) /\
    nth_error rv d = Some r /\
    (r < 5 -> aggressive_get_action target_velocity threshold env veh
              = Some (get_lane env veh)) /\
    (5 <= r -> aggressive_get_action target_velocity threshold env veh
               = Some d).
Proof.
  intros Hs Hhw Hne Hlen.
  destruct (np_argmax_nonempty hw Hne) as [d Hd].
  destruct (np_argmax_spec hw d Hd) as [Hlt [hd [Hhd Hmax]]].
  destruct (nth_error rv d) as [r|] eqn:Hr.
  2:{ apply nth_error_None in Hr. lia. }
  exists d, r, hd. repeat split; try assumption;
    intro Hrel; unfold aggressive_get_action;
    rewrite (proj2 (qltb_iff _ _) Hs), Hhw; cbv beta iota zeta;
    rewrite Hd, Hr.
  - rewrite (proj2 (qltb_iff _ _) Hrel). reflexivity.
  - rewrite (proj2 (qltb_false _ _) Hrel). reflexivity.
Qed.

Lemma aggressive_rear_gap_guard_witness :
  exists d r hd,
    np_argmax [10; 50; 20] = Some d /\ nth_error [10; 50; 20] d = Some hd /\
    (forall i y, nth_error [10; 50; 20] i = Some y -> y <= hd) /\
    nth_error [10; 3; 10] d = Some r /\
    (r < 5 -> aggressive_get_action 10 (3#4) blocked_env "ego"
              = Some (get_lane blocked_env "ego")) /\
    (5 <= r -> aggressive_get_action 10 (3#4) blocked_env "ego" = Some d).
Proof.
  apply (aggressive_rear_gap_guard 10 (3#4) blocked_env "ego").
  - vm_compute; reflexivity.
  - reflexivity.
  - discriminate.
  - reflexivity.
Defined.

(** Claim C9: the safe-aggressive controller returns the current lane or an
    adjacent one, always a valid lane index (when the simulator reports one
    forward gap per lane); below the threshold velocity the chosen
    candidate is abandoned for the current lane when its rear gap is below
    8, and returned otherwise. *)
Theorem safe_aggressive_adjacent_lane (target_velocity threshold : Q)
  (env : Env) (veh : string) (hw rv : list Q) (l : nat) :
  get_leader_blocker_headways env veh = (hw, rv) ->
  length hw = scenario_lanes env ->
  (get_lane env veh < scenario_lanes env)%nat ->
  safe_aggressive_get_action target_velocity threshold env veh = Some l ->
  ((l + 1 = get_lane env veh \/ l = get_lane env veh
    \/ l = get_lane env veh + 1) /\ l < scenario_lanes env)%nat
  /\ forall i d r,
       get_speed env veh < target_velocity * threshold ->
       np_argmax (available_headways hw (get_lane env veh)
                    (scenario_lanes env)) = Some i ->
       nth_error (available_lanes (get_lane env veh) (scenario_lanes env)) i
         = Some d ->
       nth_error rv d = Some r ->
       (r < 8 -> l = get_lane env veh) /\ (8 <= r -> l = d).
Proof.
  intros Hhw Hlen Hcur Hl.
  unfold safe_aggressive_get_action in Hl.
  destruct (qltb (get_speed env veh) (target_velocity * threshold)) eqn:Hs.
  2:{ injection Hl as <-. split; [lia|].
      intros i d r Hlt. apply qltb_false in Hs.
      exfalso. apply (Qlt_not_le _ _ Hlt Hs). }
  rewrite Hhw in Hl. cbv beta iota zeta in Hl.
  destruct (np_argmax (available_headways hw (get_lane env veh)
                         (scenario_lanes env))) as [i|] eqn:Hi;
    [|discriminate].
  destruct (nth_error (available_lanes (get_lane env veh)
                         (scenario_lanes env)) i) as [d|] eqn:Hd;
    [|discriminate].
  destruct (nth_error rv d) as [r|] eqn:Hr; [|discriminate].
  assert (Hrange : ((d + 1 = get_lane env veh \/ d = get_lane env veh
                    \/ d = get_lane env veh + 1)
                   /\ d < scenario_lanes env)%nat).
  { destruct (np_argmax_spec _ _ Hi) as [Hil _].
    unfold available_headways in Hil.
    rewrite length_firstn, length_skipn, Hlen in Hil.
    unfold available_lanes in Hd.
    destruct (nth_error_seq_inv _ _ _ _ Hd) as [-> Hin].
    unfold safe_lo, safe_hi in *. lia. }
  split.
  - destruct (qltb r 8); injection Hl as <-; [split; [lia|assumption]|].
    exact Hrange.
  - intros i' d' r' _ Hi' Hd' Hr'.
    injection Hi' as <-. rewrite Hd in Hd'. injection Hd' as <-.
    rewrite Hr in Hr'. injection Hr' as <-.
    split; intro Hrel.
    + rewrite (proj2 (qltb_iff _ _) Hrel) in Hl. injection Hl as <-.
      reflexivity.
    + rewrite (proj2 (qltb_false _ _) Hrel) in Hl. injection Hl as <-.
      reflexivity.
Qed.

Lemma safe_aggressive_adjacent_lane_witness :
  ((2 + 1 = get_lane blocked_env "ego" \/ 2 = get_lane blocked_env "ego"
    \/ 2 = get_lane blocked_env "ego" + 1) /\ 2 < scenario_lanes blocked_env)%nat
  /\ forall i d r,
       get_speed blocked_env "ego" < 10 * (3#4) ->
       np_argmax (available_headways [10; 50; 20] 2 3) = Some i ->
       nth_error (available_lanes 2 3) i = Some d ->
       nth_error [10; 3; 10] d = Some r ->
       (r < 8 -> 2%nat = get_lane blocked_env "ego") /\ (8 <= r -> 2%nat = d).
Proof.
  apply (safe_aggressive_adjacent_lane 10 (3#4) blocked_env "ego"
           [10; 50; 20] [10; 3; 10] 2).
  - reflexivity.
  - reflexivity.
  - simpl; lia.
  - vm_compute; reflexivity.
Defined.

(** Claim C10: the two [StochasticLaneChanger] classes of the module compute
    the same lane for every environment, vehicle and random draw. *)
Theorem stochastic_duplicates_agree (p : StochParams) (env : Env)
  (veh : string) (draw : Q) :
  StochasticLaneChanger1.get_action p env veh draw
  = StochasticLaneChanger2.get_action p env veh draw.
Proof.
  unfold StochasticLaneChanger1.get_action, StochasticLaneChanger2.get_action.
  assert (Hs : forall lane, StochasticLaneChanger1.lane_speed p env veh lane
                            = StochasticLaneChanger2.lane_speed p env veh lane)
    by (intro lane; reflexivity).
  unfold StochasticLaneChanger1.lane_speeds, StochasticLaneChanger2.lane_speeds.
  rewrite (map_ext _ _ Hs). reflexivity.
Qed.

End LaneChangeClaims.

(** ** Facts about the registries and the coordinator monad *)
Module BridgeFacts.
Import BayBridge.

Lemma bind_inv {A B} (m : M A) (k : A -> M B) s b s' o :
  bind m k s = Some (b, s', o) ->
  exists a s1 o1 o2,
    m s = Some (a, s1, o1) /\ k a s1 = Some (b, s', o2) /\ o = o1 ++ o2.
Proof.
  unfold bind. destruct (m s) as [[[a s1] o1]|]; [|discriminate].
  destruct (k a s1) as [[[b' s2] o2]|] eqn:E; [|discriminate].
  intro H. injection H as <- <- <-. exists a, s1, o1, o2. auto.
Qed.

Ltac binv H :=
  let a := fresh "a" in let s1 := fresh "s" in
  let o1 := fresh "o" in let o2 := fresh "o" in
  let H1 := fresh "Hm" in let Ho := fresh "Ho" in
  apply bind_inv in H; destruct H as (a & s1 & o1 & o2 & H1 & H & Ho).

Lemma dict_get_set_same d k x : dict_get (dict_set d k x) k = Some x.
Proof.
  induction d as [|[k' x'] r IH]; simpl.
  - rewrite String.eqb_refl. reflexivity.
  - destruct (String.eqb k k') eqn:E; simpl.
    + rewrite String.eqb_refl. reflexivity.
    + rewrite E. exact IH.
Qed.

Lemma dict_get_set_other d k x v :
  k <> v -> dict_get (dict_set d k x) v = dict_get d v.
Proof.
  intro Hne. induction d as [|[k' x'] r IH]; simpl.
  - apply String.eqb_neq in Hne. rewrite String.eqb_sym, Hne. reflexivity.
  - destruct (String.eqb k k') eqn:E; simpl.
    + apply String.eqb_eq in E. subst k'.
      apply String.eqb_neq in Hne. rewrite String.eqb_sym, Hne. reflexivity.
    + rewrite IH. reflexivity.
Qed.

Lemma dict_keys_set_In d k x y :
  In y (dict_keys (dict_set d k x)) -> y = k \/ In y (dict_keys d).
Proof.
  induction d as [|[k' x'] r IH]; simpl.
  { intros [<-|[]]. left; reflexivity. }
  destruct (String.eqb k k') eqn:E; simpl.
  - apply String.eqb_eq in E. subst. tauto.
  - intros [<-|H]; [right; left; reflexivity|]. destruct (IH H); tauto.
Qed.

Lemma dict_set_nodup d k x :
  NoDup (dict_keys d) -> NoDup (dict_keys (dict_set d k x)).
Proof.
  induction d as [|[k' x'] r IH]; simpl; intro Hnd.
  - constructor; [intros []|constructor].
  - inversion Hnd as [|? ? Hnin Hnd']; subst.
    destruct (String.eqb k k') eqn:E; simpl.
    + apply String.eqb_eq in E. subst. constructor; assumption.
    + constructor; [|apply IH; assumption].
      intro Hin. destruct (dict_keys_set_In r k x k' Hin) as [->|Hin'].
      * rewrite String.eqb_refl in E. discriminate.
      * contradiction.
Qed.

Lemma dict_del_keys_In d k d' y :
  dict_del d k = Some d' -> In y (dict_keys d') -> In y (dict_keys d).
Proof.
  revert d'. induction d as [|[k' x'] r IH]; simpl; intros d' H; [discriminate|].
  destruct (String.eqb k k').
  - injection H as <-. tauto.
  - destruct (dict_del r k) as [r'|] eqn:E; simpl in H; [|discriminate].
    injection H as <-. simpl. intros [<-|Hin]; [tauto|right; eauto].
Qed.

Lemma dict_del_nodup d k d' :
  NoDup (dict_keys d) -> dict_del d k = Some d' -> NoDup (dict_keys d').
Proof.
  revert d'. induction d as [|[k' x'] r IH]; simpl; intros d' Hnd H;
    [discriminate|].
  inversion Hnd as [|? ? Hnin Hnd']; subst.
  destruct (String.eqb k k').
  - injection H as <-. assumption.
  - destruct (dict_del r k) as [r'|] eqn:E; simpl in H; [|discriminate].
    injection H as <-. simpl. constructor.
    + intro Hin. apply Hnin. eapply dict_del_keys_In; eassumption.
    + apply (IH r'); auto.
Qed.

Lemma dict_del_get_other d k d' v :
  dict_del d k = Some d' -> k <> v -> dict_get d' v = dict_get d v.
Proof.
  revert d'. induction d as [|[k' x'] r IH]; simpl; intros d' H Hne;
    [discriminate|].
  destruct (String.eqb k k') eqn:E.
  - injection H as <-. apply String.eqb_eq in E. subst k'.
    apply String.eqb_neq in Hne. rewrite String.eqb_sym, Hne. reflexivity.
  - destruct (dict_del r k) as [r'|] eqn:E'; simpl in H; [|discriminate].
    injection H as <-. simpl. destruct (String.eqb v k'); [reflexivity|].
    apply IH; auto.
Qed.

Lemma dict_get_none_keys d v : ~ In v (dict_keys d) -> dict_get d v = None.
Proof.
  induction d as [|[k' x'] r IH]; simpl; intro H; [reflexivity|].
  destruct (String.eqb v k') eqn:E.
  - apply String.eqb_eq in E. subst. tauto.
  - apply IH. tauto.
Qed.

Lemma dict_get_keys d v e : dict_get d v = Some e -> In v (dict_keys d).
Proof.
  induction d as [|[k' x'] r IH]; simpl; intro H; [discriminate|].
  destruct (String.eqb v k') eqn:E.
  - apply String.eqb_eq in E. subst. left; reflexivity.
  - right. apply IH; assumption.
Qed.

Lemma dict_del_get_self d k d' :
  NoDup (dict_keys d) -> dict_del d k = Some d' -> dict_get d' k = None.
Proof.
  intros Hnd H. apply dict_get_none_keys. intro Hin.
  revert d' H Hin. induction d as [|[k' x'] r IH]; simpl; intros d' H Hin;
    [discriminate|].
  inversion Hnd as [|? ? Hnin Hnd']; subst.
  destruct (String.eqb k k') eqn:E.
  - injection H as <-. apply String.eqb_eq in E. subst. contradiction.
  - destruct (dict_del r k) as [r'|] eqn:E'; simpl in H; [|discriminate].
    injection H as <-. simpl in Hin. destruct Hin as [<-|Hin].
    + rewrite String.eqb_refl in E. discriminate.
    + apply (IH Hnd' r' eq_refl Hin).
Qed.

Lemma for_veh_app v o1 o2 : for_veh v (o1 ++ o2) = for_veh v o1 ++ for_veh v o2.
Proof. unfold for_veh. apply filter_app. Qed.

Lemma py_setitem_length {A} (l : list A) i x l' :
  py_setitem l i x = Some l' -> length l' = length l.
Proof.
  revert i l'. induction l as [|y r IH]; intros [|i] l' H; simpl in H;
    try discriminate.
  - injection H as <-. reflexivity.
  - destruct (py_setitem r i x) eqn:E; simpl in H; [|discriminate].
    injection H as <-. simpl. f_equal. eapply IH; eassumption.
Qed.

Lemma py_setitem_Forall {A} (P : A -> Prop) (l : list A) i x l' :
  Forall P l -> P x -> py_setitem l i x = Some l' -> Forall P l'.
Proof.
  revert i l'. induction l as [|y r IH]; intros [|i] l' Hl Hx H; simpl in H;
    try discriminate; inversion Hl; subst.
  - injection H as <-. constructor; assumption.
  - destruct (py_setitem r i x) eqn:E; simpl in H; [|discriminate].
    injection H as <-. constructor; [assumption|]. eapply IH; eassumption.
Qed.

Lemma py_setitem_nth {A} (l : list A) i x l' j :
  py_setitem l i x = Some l' ->
  nth_error l' j = if Nat.eqb j i then Some x else nth_error l j.
Proof.
  revert i j l'. induction l as [|y r IH]; intros [|i] j l' H; simpl in H;
    try discriminate.
  - injection H as <-. destruct j; reflexivity.
  - destruct (py_setitem r i x) eqn:E; simpl in H; [|discriminate].
    injection H as <-. destruct j as [|j]; simpl; [reflexivity|].
    apply IH; assumption.
Qed.

Lemma py_setitem_Some {A} (l : list A) i x :
  (i < length l)%nat -> exists l', py_setitem l i x = Some l'.
Proof.
  revert i. induction l as [|y r IH]; intros [|i] Hi; simpl in *;
    try (exfalso; lia); eauto.
  destruct (IH i ltac:(lia)) as [l' ->]. simpl. eauto.
Qed.

Lemma concat_light_length (l : list string) :
  Forall (fun x => x = "G"%string \/ x = "r"%string) l ->
  String.length (String.concat "" l) = length l.
Proof.
  induction l as [|x r IH]; intro H; [reflexivity|].
  inversion H as [|? ? Hx Hr]; subst.
  destruct r as [|y r'].
  - destruct Hx as [->| ->]; reflexivity.
  - change (String.concat "" (x :: y :: r'))
      with (x ++ "" ++ String.concat "" (y :: r'))%string.
    destruct Hx as [->| ->]; simpl; f_equal; apply IH; assumption.
Qed.

Lemma edge_dict_edge sim edge lane v pos :
  In (v, pos) (edge_dict sim edge lane) -> get_edge sim v = edge.
Proof.
  unfold edge_dict. intro H. apply in_map_iff in H.
  destruct H as [v' [Heq Hin]]. injection Heq as -> _.
  apply filter_In in Hin. destruct Hin as [_ Hb].
  apply andb_true_iff in Hb. destruct Hb as [Hb _].
  apply String.eqb_eq. exact Hb.
Qed.

Lemma toll_car_inv sim lane states car s st s' o :
  toll_car sim lane states car s = Some (st, s', o) ->
  tl_state s' = tl_state s /\
  Forall (fun c => is_tls_cmd c = false) o /\
  (lights_ok states -> lights_ok st /\ length st = length states) /\
  (NoDup (dict_keys (cars_waiting_for_toll s)) ->
   NoDup (dict_keys (cars_waiting_for_toll s'))) /\
  (forall v, fst car <> v \/ dict_mem (cars_waiting_for_toll s) v = true ->
   dict_get (cars_waiting_for_toll s') v = dict_get (cars_waiting_for_toll s) v
   /\ for_veh v o = []).
Proof.
  destruct car as [veh pos]. unfold toll_car. intro H. simpl fst.
  destruct (qltb TOLL_BOOTH_AREA pos).
  2:{ cbv [ret] in H. injection H as <- <- <-.
      repeat split; auto. }
  cbv [bind get ret put setColor getColor setLaneChangeMode lift
       get_toll_wait set_toll_wait] in H.
  destruct (negb (dict_mem (cars_waiting_for_toll s) veh)) eqn:Hm.
  - injection H as <- <- <-. simpl.
    split; [reflexivity|]. split; [repeat constructor|].
    split; [auto|]. split; [apply dict_set_nodup|].
    intros v Hv. assert (Hne : veh <> v).
    { destruct Hv as [Hv|Hv]; [exact Hv|]. intros <-.
      rewrite Hv in Hm. discriminate. }
    split; [apply dict_get_set_other; exact Hne|].
    unfold for_veh; simpl.
    apply String.eqb_neq in Hne. rewrite String.eqb_sym, Hne. reflexivity.
  - destruct (qltb 120 pos).
    2:{ injection H as <- <- <-. repeat split; auto. }
    destruct (nth_error (toll_wait_time s) lane) as [w|]; [|discriminate].
    destruct (qltb w 0).
    + destruct (py_setitem states lane "G"%string) as [st1|] eqn:Hp;
        [|discriminate].
      injection H as <- <- <-.
      split; [reflexivity|]. split; [constructor|].
      split; [|split; [auto|intros; split; reflexivity]].
      intro Hl. split; [eapply py_setitem_Forall; [exact Hl| |exact Hp]; auto|].
      eapply py_setitem_length; eassumption.
    + destruct (py_setitem states lane "r"%string) as [st1|] eqn:Hp;
        [|discriminate].
      destruct (py_setitem (toll_wait_time s) lane (w - 1)) as [wl|];
        [|discriminate].
      injection H as <- <- <-.
      split; [reflexivity|]. split; [constructor|].
      split; [|split; [auto|intros; split; reflexivity]].
      intro Hl. split; [eapply py_setitem_Forall; [exact Hl| |exact Hp]; auto|].
      eapply py_setitem_length; eassumption.
Qed.

Lemma toll_cars_inv sim lane cars states s st s' o :
  toll_cars sim lane states cars s = Some (st, s', o) ->
  tl_state s' = tl_state s /\
  Forall (fun c => is_tls_cmd c = false) o /\
  (lights_ok states -> lights_ok st /\ length st = length states) /\
  (NoDup (dict_keys (cars_waiting_for_toll s)) ->
   NoDup (dict_keys (cars_waiting_for_toll s'))) /\
  (forall v, (forall pos, ~ In (v, pos) cars)
             \/ dict_mem (cars_waiting_for_toll s) v = true ->
   dict_get (cars_waiting_for_toll s') v = dict_get (cars_waiting_for_toll s) v
   /\ for_veh v o = []).
Proof.
  revert states s st s' o.
  induction cars as [|car rest IH]; intros states s st s' o H; simpl in H.
  - injection H as <- <- <-. repeat split; auto.
  - binv H. subst o.
    destruct (toll_car_inv _ _ _ _ _ _ _ _ Hm)
      as (Htl1 & Hf1 & Hl1 & Hn1 & Hv1).
    destruct (IH _ _ _ _ _ H) as (Htl2 & Hf2 & Hl2 & Hn2 & Hv2).
    split; [congruence|].
    split; [apply Forall_app; split; assumption|].
    split; [intro Hl; destruct (Hl1 Hl) as [Ha Hb];
            destruct (Hl2 Ha) as [Hc Hd]; split; [exact Hc|congruence]|].
    split; [auto|].
    intros v Hv.
    assert (Hc1 : fst car <> v \/
                  dict_mem (cars_waiting_for_toll s) v = true).
    { destruct Hv as [Hv|Hv]; [left|right; exact Hv].
      intros <-. apply (Hv (snd car)). left. destruct car; reflexivity. }
    destruct (Hv1 v Hc1) as [Hg1 Ho1].
    assert (Hc2 : (forall pos, ~ In (v, pos) rest) \/
                  dict_mem (cars_waiting_for_toll s0) v = true).
    { destruct Hv as [Hv|Hv]; [left|right].
      - intros pos Hin. apply (Hv pos). right; exact Hin.
      - unfold dict_mem in *. rewrite Hg1. exact Hv. }
    destruct (Hv2 v Hc2) as [Hg2 Ho2].
    split; [congruence|]. rewrite for_veh_app, Ho1, Ho2. reflexivity.
Qed.

Lemma toll_lanes_inv sim lanes states s st s' o :
  toll_lanes sim lanes states s = Some (st, s', o) ->
  tl_state s' = tl_state s /\
  Forall (fun c => is_tls_cmd c = false) o /\
  (lights_ok states -> lights_ok st /\ length st = length states) /\
  (NoDup (dict_keys (cars_waiting_for_toll s)) ->
   NoDup (dict_keys (cars_waiting_for_toll s'))) /\
  (forall v, get_edge sim v <> EDGE_BEFORE_TOLL
             \/ dict_mem (cars_waiting_for_toll s) v = true ->
   dict_get (cars_waiting_for_toll s') v = dict_get (cars_waiting_for_toll s) v
   /\ for_veh v o = []).
Proof.
  revert states s st s' o.
  induction lanes as [|lane rest IH]; intros states s st s' o H; simpl in H.
  - injection H as <- <- <-. repeat split; auto.
  - binv H. subst o.
    destruct (toll_cars_inv _ _ _ _ _ _ _ _ Hm)
      as (Htl1 & Hf1 & Hl1 & Hn1 & Hv1).
    destruct (IH _ _ _ _ _ H) as (Htl2 & Hf2 & Hl2 & Hn2 & Hv2).
    split; [congruence|].
    split; [apply Forall_app; split; assumption|].
    split; [intro Hl; destruct (Hl1 Hl) as [Ha Hb];
            destruct (Hl2 Ha) as [Hc Hd]; split; [exact Hc|congruence]|].
    split; [auto|].
    intros v Hv.
    assert (Hc1 : (forall pos, ~ In (v, pos)
                     (edge_dict sim EDGE_BEFORE_TOLL lane)) \/
                  dict_mem (cars_waiting_for_toll s) v = true).
    { destruct Hv as [Hv|Hv]; [left|right; exact Hv].
      intros pos Hin. apply Hv. eapply edge_dict_edge; exact Hin. }
    destruct (Hv1 v Hc1) as [Hg1 Ho1].
    assert (Hc2 : get_edge sim v <> EDGE_BEFORE_TOLL \/
                  dict_mem (cars_waiting_for_toll s0) v = true).
    { destruct Hv as [Hv|Hv]; [left; exact Hv|right].
      unfold dict_mem in *. rewrite Hg1. exact Hv. }
    destruct (Hv2 v Hc2) as [Hg2 Ho2].
    split; [congruence|]. rewrite for_veh_app, Ho1, Ho2. reflexivity.
Qed.

Lemma toll_release_inv sim sim_step gauss keys s left s' o :
  toll_release sim sim_step gauss keys s = Some (left, s', o) ->
  cars_waiting_for_toll s' = cars_waiting_for_toll s /\
  tl_state s' = tl_state s /\
  Forall (fun c => is_tls_cmd c = false) o /\
  left = filter (fun v => String.eqb (get_edge sim v) EDGE_AFTER_TOLL) keys /\
  (forall v, ~ In v keys -> for_veh v o = []) /\
  (forall v e, NoDup keys -> In v keys ->
   dict_get (cars_waiting_for_toll s) v = Some e ->
   for_veh v o =
     if String.eqb (get_edge sim v) EDGE_AFTER_TOLL
     then [SetColor v (color e); SetLaneChangeMode v (lane_change_mode e)]
     else []).
Proof.
  revert s left s' o.
  induction keys as [|k rest IH]; intros s left s' o H; cbn [toll_release] in H.
  - injection H as <- <- <-. repeat split; auto.
    intros v e _ [].
  - apply bind_inv in H; destruct H as (a & s0 & o1 & o2 & Hm & H & Ho).
    apply bind_inv in H; destruct H as (a0 & s1 & o3 & o4 & Hm0 & H & Ho0).
    cbv [ret] in H. injection H as <- <- <-. subst o o2.
    rewrite app_nil_r.
    assert (Hhead :
      cars_waiting_for_toll s0 = cars_waiting_for_toll s /\
      tl_state s0 = tl_state s /\
      Forall (fun c => is_tls_cmd c = false) o1 /\
      a = (if String.eqb (get_edge sim k) EDGE_AFTER_TOLL then [k] else []) /\
      (forall v, k <> v -> for_veh v o1 = []) /\
      (forall e, dict_get (cars_waiting_for_toll s) k = Some e ->
       for_veh k o1 =
         if String.eqb (get_edge sim k) EDGE_AFTER_TOLL
         then [SetColor k (color e); SetLaneChangeMode k (lane_change_mode e)]
         else [])).
    { destruct (String.eqb (get_edge sim k) EDGE_AFTER_TOLL) eqn:Ek.
      - cbv [bind get ret setColor setLaneChangeMode raise
             np_random_normal set_toll_wait] in Hm.
        destruct (dict_get (cars_waiting_for_toll s) k) as [e|] eqn:Hg;
          [|discriminate].
        destruct (negb (in_fast_track (get_lane sim k)));
          (destruct (py_setitem _ _ _) as [wl|]; [|discriminate]);
          injection Hm as <- <- <-; simpl;
          (split; [reflexivity|]); (split; [reflexivity|]);
          (split; [repeat constructor|]); (split; [reflexivity|]);
          (split; [intros v Hne; unfold for_veh; simpl;
                   apply String.eqb_neq in Hne;
                   rewrite String.eqb_sym, Hne; reflexivity|]);
          intros e' He'; injection He' as ->; unfold for_veh; simpl;
          rewrite String.eqb_refl; reflexivity.
      - cbv [ret] in Hm. injection Hm as <- <- <-.
        repeat split; auto. }
    destruct Hhead as (Hr1 & Ht1 & Hf1 & Ha1 & Hv1 & Hk1).
    destruct (IH _ _ _ _ Hm0) as (Hr2 & Ht2 & Hf2 & Ha2 & Hv2 & Hk2).
    split; [congruence|]. split; [congruence|].
    split; [apply Forall_app; split; assumption|].
    split; [simpl; rewrite Ha1, Ha2;
            destruct (String.eqb (get_edge sim k) EDGE_AFTER_TOLL);
            reflexivity|].
    split.
    + intros v Hv. rewrite for_veh_app, Hv1, Hv2; [reflexivity| |].
      * intro Hin. apply Hv. right; exact Hin.
      * intros ->. apply Hv. left; reflexivity.
    + intros v e Hnd Hin Hg. inversion Hnd as [|? ? Hnin Hnd']; subst.
      rewrite for_veh_app.
      destruct (String.eqb_spec k v) as [<-|Hne].
      * rewrite (Hk1 e Hg), (Hv2 k Hnin), app_nil_r. reflexivity.
      * destruct Hin as [Hin|Hin]; [contradiction|].
        rewrite (Hv1 v Hne), (Hk2 v e Hnd' Hin); [reflexivity|].
        rewrite Hr1. exact Hg.
Qed.

Lemma toll_delete_inv ks s u s' o :
  toll_delete ks s = Some (u, s', o) ->
  o = [] /\ tl_state s' = tl_state s /\
  (NoDup (dict_keys (cars_waiting_for_toll s)) ->
   NoDup (dict_keys (cars_waiting_for_toll s')) /\
   forall v, In v ks -> dict_get (cars_waiting_for_toll s') v = None) /\
  (forall v, ~ In v ks ->
   dict_get (cars_waiting_for_toll s') v = dict_get (cars_waiting_for_toll s) v).
Proof.
  revert s u s' o.
  induction ks as [|k rest IH]; intros s u s' o H; cbn [toll_delete] in H.
  - injection H as <- <- <-. repeat split; auto. intros _ [].
  - apply bind_inv in H; destruct H as (a & s0 & o0 & o1 & Hm & H & Ho).
    cbv [get] in Hm. injection Hm as <- <- <-.
    apply bind_inv in H; destruct H as (a0 & s1 & o2 & o3 & Hm & H & Ho').
    destruct (dict_del (cars_waiting_for_toll s) k) as [d|] eqn:Hd;
      [|discriminate].
    cbv [put] in Hm. injection Hm as <- <- <-.
    destruct (IH _ _ _ _ H) as (Hoo & Ht & Hn & Hv).
    subst. simpl in *.
    split; [reflexivity|]. split; [exact Ht|]. split.
    + intro Hnd. assert (Hnd1 : NoDup (dict_keys d))
        by (eapply dict_del_nodup; eassumption).
      destruct (Hn Hnd1) as [Hnd2 Hin2]. split; [exact Hnd2|].
      intros v [<-|Hin]; [|apply Hin2; exact Hin].
      destruct (in_dec String.string_dec k rest) as [Hk|Hk];
        [apply Hin2; exact Hk|].
      rewrite (Hv k Hk). simpl. exact (dict_del_get_self _ k d Hnd Hd).
    + intros v Hnot. rewrite Hv; [|intro; apply Hnot; right; assumption].
      simpl. eapply dict_del_get_other; [eassumption|].
      intros ->. apply Hnot. left; reflexivity.
Qed.

Lemma filter_tls_nil (l : list Cmd) :
  Forall (fun c => is_tls_cmd c = false) l -> filter is_tls_cmd l = [].
Proof.
  induction 1 as [|c l Hc _ IH]; simpl; [reflexivity|]. rewrite Hc. exact IH.
Qed.

Lemma toll_step_inv sim sim_step gauss s out s' o :
  apply_toll_bridge_control sim sim_step gauss s = Some (out, s', o) ->
  exists left s1 o1 s2 o2 st s3 o3,
    toll_release sim sim_step gauss (dict_keys (cars_waiting_for_toll s)) s
      = Some (left, s1, o1) /\
    toll_delete left s1 = Some (tt, s2, o2) /\
    toll_lanes sim (seq 0 NUM_TOLL_LANES)
      (repeat "G"%string NUM_TOLL_LANES) s2 = Some (st, s3, o3) /\
    out = String.concat "" st /\
    (if String.eqb out (tl_state s3)
     then s' = s3 /\ o = o1 ++ o2 ++ o3
     else s' = set_tl_state out s3 /\
          o = o1 ++ o2 ++ o3 ++ [SetRedYellowGreenState TB_TL_ID out]).
Proof.
  unfold apply_toll_bridge_control. intro H.
  apply bind_inv in H; destruct H as (a & s0 & o0 & oa & Hm & H & Ho).
  cbv [get] in Hm. injection Hm as <- <- <-.
  apply bind_inv in H; destruct H as (left & s1 & o1 & ob & H1 & H & Ho1).
  apply bind_inv in H; destruct H as (u & s2 & o2 & oc & H2 & H & Ho2).
  destruct u.
  apply bind_inv in H; destruct H as (st & s3 & o3 & od & H3 & H & Ho3).
  cbv zeta in H.
  apply bind_inv in H; destruct H as (b & s4 & o4 & oe & Hm & H & Ho4).
  cbv [get] in Hm. injection Hm as <- <- <-.
  apply bind_inv in H; destruct H as (c & s5 & o5 & of & Hm & H & Ho5).
  cbv [ret] in H. injection H as <- <- <-.
  exists left, s1, o1, s2, o2, st, s3, o3.
  split; [exact H1|]. split; [exact H2|]. split; [exact H3|].
  split; [reflexivity|]. subst.
  destruct (String.eqb (String.concat "" st) (tl_state s3)); simpl in Hm.
  - cbv [ret] in Hm. injection Hm as <- <- <-.
    split; [reflexivity|]. rewrite ?app_nil_r. reflexivity.
  - cbv [bind put setRedYellowGreenState] in Hm.
    injection Hm as <- <- <-. split; [reflexivity|]. simpl.
    rewrite ?app_nil_r. reflexivity.
Qed.

End BridgeFacts.

(** ** Claims on the Bay Bridge coordinators *)
Module BridgeClaims.
Import BayBridge BridgeScenarios BridgeFacts.

(** Claim C2: in a step of the toll coordinator (on a wait registry without
    duplicate keys), a registered vehicle observed on the edge after the
    toll receives exactly one colour command and one lane-change-mode
    command, carrying its saved colour and mode, and leaves the registry in
    that step; a registered vehicle elsewhere receives no command and keeps
    its entry.  The registry keeps distinct keys. *)
Theorem toll_restore_exactly_once sim sim_step gauss s out s' o v e :
  NoDup (dict_keys (cars_waiting_for_toll s)) ->
  apply_toll_bridge_control sim sim_step gauss s = Some (out, s', o) ->
  dict_get (cars_waiting_for_toll s) v = Some e ->
  NoDup (dict_keys (cars_waiting_for_toll s')) /\
  (get_edge sim v = EDGE_AFTER_TOLL ->
   for_veh v o = [SetColor v (color e); SetLaneChangeMode v (lane_change_mode e)]
   /\ dict_get (cars_waiting_for_toll s') v = None) /\
  (get_edge sim v <> EDGE_AFTER_TOLL ->
   for_veh v o = [] /\ dict_get (cars_waiting_for_toll s') v = Some e).
Proof.
  intros Hnd H Hg.
  destruct (toll_step_inv _ _ _ _ _ _ _ H)
    as (left & s1 & o1 & s2 & o2 & st & s3 & o3 & H1 & H2 & H3 & Hout & Hfin).
  destruct (toll_release_inv _ _ _ _ _ _ _ _ H1)
    as (Hr1 & _ & _ & Hleft & _ & Hv1).
  destruct (toll_delete_inv _ _ _ _ _ H2) as (Ho2 & _ & Hn2 & Hk2).
  destruct (toll_lanes_inv _ _ _ _ _ _ _ H3) as (_ & _ & _ & Hn3 & Hv3).
  assert (Hin : In v (dict_keys (cars_waiting_for_toll s)))
    by (eapply dict_get_keys; exact Hg).
  specialize (Hv1 v e Hnd Hin Hg).
  rewrite <- Hr1 in Hnd. destruct (Hn2 Hnd) as [Hnd2 Hdel].
  assert (Hreg : cars_waiting_for_toll s' = cars_waiting_for_toll s3
           /\ for_veh v o = for_veh v o1 ++ for_veh v o3).
  { subst o2. destruct (String.eqb out (tl_state s3));
      destruct Hfin as [-> ->]; split; try reflexivity;
      rewrite !for_veh_app; simpl; rewrite ?app_nil_r; reflexivity. }
  destruct Hreg as [Hreg Hfv].
  split; [rewrite Hreg; apply Hn3; exact Hnd2|].
  split; intro He.
  - assert (Hl : In v left).
    { rewrite Hleft. apply filter_In. split; [exact Hin|].
      apply String.eqb_eq. exact He. }
    assert (Hnone : dict_get (cars_waiting_for_toll s2) v = None)
      by (apply Hdel; exact Hl).
    assert (Hbefore : get_edge sim v <> EDGE_BEFORE_TOLL)
      by (rewrite He; discriminate).
    destruct (Hv3 v (or_introl Hbefore)) as [Hg3 Ho3].
    rewrite Hfv, Ho3, Hv1, app_nil_r, Hreg, Hg3, Hnone.
    rewrite (proj2 (String.eqb_eq _ _) He). split; reflexivity.
  - assert (Hl : ~ In v left).
    { rewrite Hleft. intro Hf. apply filter_In in Hf.
      destruct Hf as [_ Hf]. apply String.eqb_eq in Hf. contradiction. }
    assert (Hkeep : dict_get (cars_waiting_for_toll s2) v = Some e)
      by (rewrite (Hk2 v Hl), Hr1; exact Hg).
    assert (Hmem : dict_mem (cars_waiting_for_toll s2) v = true)
      by (unfold dict_mem; rewrite Hkeep; reflexivity).
    destruct (Hv3 v (or_intror Hmem)) as [Hg3 Ho3].
    rewrite Hfv, Ho3, Hv1, Hreg, Hg3, Hkeep.
    rewrite (proj2 (String.eqb_neq _ _) He). split; reflexivity.
Qed.

Lemma toll_restore_exactly_once_witness :
  match apply_toll_bridge_control two_car_sim (1#10) (fun _ => 1) waiting_state
  with
  | Some (out, s', o) =>
    NoDup (dict_keys (cars_waiting_for_toll s')) /\
    (get_edge two_car_sim "V2" = EDGE_AFTER_TOLL ->
     for_veh "V2" o = [SetColor "V2" (color (mkSaved 7 yellow));
                       SetLaneChangeMode "V2" (lane_change_mode (mkSaved 7 yellow))]
     /\ dict_get (cars_waiting_for_toll s') "V2" = None) /\
    (get_edge two_car_sim "V2" <> EDGE_AFTER_TOLL ->
     for_veh "V2" o = [] /\
     dict_get (cars_waiting_for_toll s') "V2" = Some (mkSaved 7 yellow))
  | None => False
  end.
Proof.
  destruct (apply_toll_bridge_control two_car_sim (1#10) (fun _ => 1)
              waiting_state) as [[[out s'] o]|] eqn:E.
  - apply (toll_restore_exactly_once two_car_sim (1#10) (fun _ => 1)
             waiting_state out s' o "V2" (mkSaved 7 yellow)).
    + vm_compute. constructor; [intros [H|[]]; discriminate|].
      constructor; [intros []|constructor].
    + exact E.
    + reflexivity.
  - vm_compute in E. discriminate.
Defined.

(** Claim C3: the light string built by a step of the toll coordinator has
    NUM_TOLL_LANES characters, becomes the stored [tl_state], and is sent to
    the traffic light exactly when it differs from the stored string of the
    previous step (and not sent otherwise). *)
Theorem toll_light_string sim sim_step gauss s out s' o :
  apply_toll_bridge_control sim sim_step gauss s = Some (out, s', o) ->
  String.length out = NUM_TOLL_LANES /\ tl_state s' = out /\
  filter is_tls_cmd o =
    (if String.eqb out (tl_state s) then []
     else [SetRedYellowGreenState TB_TL_ID out]).
Proof.
  intro H.
  destruct (toll_step_inv _ _ _ _ _ _ _ H)
    as (left & s1 & o1 & s2 & o2 & st & s3 & o3 & H1 & H2 & H3 & Hout & Hfin).
  destruct (toll_release_inv _ _ _ _ _ _ _ _ H1) as (_ & Ht1 & Hf1 & _).
  destruct (toll_delete_inv _ _ _ _ _ H2) as (Ho2 & Ht2 & _).
  destruct (toll_lanes_inv _ _ _ _ _ _ _ H3) as (Ht3 & Hf3 & Hl3 & _).
  assert (Hok : lights_ok (repeat "G"%string NUM_TOLL_LANES)).
  { apply Forall_forall. intros x Hx. apply repeat_spec in Hx. left; exact Hx. }
  destruct (Hl3 Hok) as [Hok3 Hlen3].
  rewrite repeat_length in Hlen3.
  assert (Hts : tl_state s3 = tl_state s) by congruence.
  split; [subst out; rewrite concat_light_length; assumption|].
  subst o2. rewrite Hts in Hfin.
  destruct (String.eqb out (tl_state s)) eqn:E;
    destruct Hfin as [-> ->].
  - split; [apply String.eqb_eq in E; congruence|].
    rewrite !filter_app, (filter_tls_nil o1 Hf1), (filter_tls_nil o3 Hf3).
    reflexivity.
  - split; [reflexivity|].
    rewrite !filter_app, (filter_tls_nil o1 Hf1), (filter_tls_nil o3 Hf3).
    reflexivity.
Qed.

Lemma toll_light_string_witness :
  match apply_toll_bridge_control two_car_sim (1#10) (fun _ => 1) waiting_state
  with
  | Some (out, s', o) =>
    String.length out = NUM_TOLL_LANES /\ tl_state s' = out /\
    filter is_tls_cmd o =
      (if String.eqb out (tl_state waiting_state) then []
       else [SetRedYellowGreenState TB_TL_ID out])
  | None => False
  end.
Proof.
  destruct (apply_toll_bridge_control two_car_sim (1#10) (fun _ => 1)
              waiting_state) as [[[out s'] o]|] eqn:E.
  - apply (toll_light_string two_car_sim (1#10) (fun _ => 1) waiting_state
             out s' o).
    exact E.
  - vm_compute in E. discriminate.
Defined.

(** Claim C4 (counterexample): a registered car 125 along the approach
    edge of lane 3, whose remaining wait time is exactly 0, gets a red
    light and the wait time goes to -1: a wait time of 0 does not give
    green. *)
Lemma toll_zero_wait_is_red :
  let reg := [("V1"%string, mkSaved 1621 yellow)] in
  let s0 := start_state reg (repeat 0 NUM_TOLL_LANES) in
  let sim := toll_sim ["V1"%string] (fun _ => EDGE_BEFORE_TOLL) 3 (fun _ => 125) in
  nth_error (toll_wait_time s0) 3 = Some 0 /\
  match toll_car sim 3 (repeat "G"%string NUM_TOLL_LANES) ("V1"%string, 125) s0 with
  | Some (st, s', _) =>
    nth_error st 3 = Some "r"%string /\ nth_error (toll_wait_time s') 3 = Some (-1)
  | None => False
  end.
Proof. vm_compute. repeat split; reflexivity. Qed.

(** Claim C4 (amended): for a registered car past 120 on the approach
    edge, the car's lane is set green when its remaining wait time is
    strictly negative (wait times unchanged); otherwise, including a wait
    time of exactly 0, the lane is set red and that lane's wait time alone
    is decremented by one.  No command is sent and the registry is
    unchanged. *)
Theorem toll_registered_car_light sim lane states veh pos s w :
  dict_mem (cars_waiting_for_toll s) veh = true ->
  120 < pos ->
  nth_error (toll_wait_time s) lane = Some w ->
  (lane < length states)%nat ->
  exists st s',
    toll_car sim lane states (veh, pos) s = Some (st, s', []) /\
    cars_waiting_for_toll s' = cars_waiting_for_toll s /\
    (w < 0 -> nth_error st lane = Some "G"%string /\
              toll_wait_time s' = toll_wait_time s) /\
    (0 <= w -> nth_error st lane = Some "r"%string /\
               nth_error (toll_wait_time s') lane = Some (w - 1) /\
               forall j, j <> lane ->
                 nth_error (toll_wait_time s') j = nth_error (toll_wait_time s) j).
Proof.
  intros Hmem Hpos Hw Hlane.
  assert (H100 : qltb TOLL_BOOTH_AREA pos = true).
  { apply qltb_iff. unfold TOLL_BOOTH_AREA.
    apply Qlt_trans with 120; [reflexivity|exact Hpos]. }
  assert (H120 : qltb 120 pos = true) by (apply qltb_iff; exact Hpos).
  assert (Hwl : (lane < length (toll_wait_time s))%nat)
    by (apply nth_error_Some; congruence).
  unfold toll_car. rewrite H100.
  cbv [bind get ret put setColor getColor setLaneChangeMode lift
       get_toll_wait set_toll_wait].
  rewrite Hmem. cbv [negb]; cbv beta iota. rewrite H120, Hw.
  destruct (qltb w 0) eqn:Hneg.
  - destruct (py_setitem_Some states lane "G"%string Hlane) as [st Hst].
    rewrite Hst. exists st, s.
    split; [reflexivity|]. split; [reflexivity|]. split.
    + intros _. split; [|reflexivity].
      rewrite (py_setitem_nth _ _ _ _ lane Hst), Nat.eqb_refl. reflexivity.
    + intro Hle. apply qltb_iff in Hneg. exfalso.
      apply (Qlt_not_le _ _ Hneg Hle).
  - destruct (py_setitem_Some states lane "r"%string Hlane) as [st Hst].
    destruct (py_setitem_Some (toll_wait_time s) lane (w - 1) Hwl) as [wl Hwl'].
    rewrite Hst, Hwl'. exists st, (set_wait wl s).
    split; [reflexivity|]. split; [reflexivity|]. split.
    + intro Hlt. apply qltb_false in Hneg. exfalso.
      apply (Qlt_not_le _ _ Hlt Hneg).
    + intros _. simpl.
      rewrite (py_setitem_nth _ _ _ _ lane Hst), Nat.eqb_refl.
      split; [reflexivity|].
      rewrite (py_setitem_nth _ _ _ _ lane Hwl'), Nat.eqb_refl.
      split; [reflexivity|].
      intros j Hj. rewrite (py_setitem_nth _ _ _ _ j Hwl').
      apply Nat.eqb_neq in Hj. rewrite Hj. reflexivity.
Qed.

Lemma toll_registered_car_light_witness :
  exists st s',
    toll_car two_car_sim 3 (repeat "G"%string NUM_TOLL_LANES) ("V1"%string, 125)
      waiting_state = Some (st, s', []) /\
    cars_waiting_for_toll s' = cars_waiting_for_toll waiting_state /\
    (40 < 0 -> nth_error st 3 = Some "G"%string /\
               toll_wait_time s' = toll_wait_time waiting_state) /\
    (0 <= 40 -> nth_error st 3 = Some "r"%string /\
                nth_error (toll_wait_time s') 3 = Some (40 - 1) /\
                forall j, j <> 3%nat ->
                  nth_error (toll_wait_time s') j
                  = nth_error (toll_wait_time waiting_state) j).
Proof.
  apply (toll_registered_car_light two_car_sim 3
           (repeat "G"%string NUM_TOLL_LANES) "V1" 125 waiting_state 40).
  - reflexivity.
  - vm_compute. reflexivity.
  - reflexivity.
  - simpl. lia.
Defined.

(** Claim C5 (counterexample): in the step where [V1] (105 along the
    approach edge, lane 3) is registered, no normal draw is taken and the
    wait times are left as they were. *)
Lemma toll_registration_no_draw :
  let sim := toll_sim ["V1"%string] (fun _ => EDGE_BEFORE_TOLL) 3 (fun _ => 105) in
  let s0 := start_state [] (repeat 40 NUM_TOLL_LANES) in
  match apply_toll_bridge_control sim (1#10) (fun _ => 1) s0 with
  | Some (_, s', o) =>
    dict_get (cars_waiting_for_toll s') "V1" = Some (mkSaved 1621 yellow)
    /\ for_veh "V1" o = [SetLaneChangeMode "V1" 512; SetColor "V1" (255, 0, 255, 0)%Z]
    /\ rng s' = rng s0 /\ toll_wait_time s' = toll_wait_time s0
  | None => False
  end.
Proof. vm_compute. repeat split; reflexivity. Qed.

(** Claim C5 (amended): registering a car (past TOLL_BOOTH_AREA, not yet in
    the registry) saves its lane-change mode and current colour, sets mode
    512 and colour (255, 0, 255, 0), and leaves the wait times and the
    random stream untouched.  A lane's wait time is redrawn when a registered
    car is released on the edge after the toll: one normal draw with mean 3 s
    (fast-track lanes 6-10) or 15 s (other lanes) over sim_step and scale
    1/sim_step, clamped at 0, stored for the lane the car occupies there. *)
Theorem toll_registration_and_redraw :
  (forall sim lane states veh pos s,
     TOLL_BOOTH_AREA < pos ->
     dict_mem (cars_waiting_for_toll s) veh = false ->
     exists s',
       toll_car sim lane states (veh, pos) s
         = Some (states, s', [SetLaneChangeMode veh 512;
                              SetColor veh (255, 0, 255, 0)%Z]) /\
       cars_waiting_for_toll s'
         = dict_set (cars_waiting_for_toll s) veh
             (mkSaved (get_lane_change_mode sim veh) (traci_color s veh)) /\
       traci_color s' veh = (255, 0, 255, 0)%Z /\
       toll_wait_time s' = toll_wait_time s /\ rng s' = rng s)
  /\
  (forall sim sim_step gauss veh e s,
     get_edge sim veh = EDGE_AFTER_TOLL ->
     dict_get (cars_waiting_for_toll s) veh = Some e ->
     (get_lane sim veh < length (toll_wait_time s))%nat ->
     exists s',
       toll_release sim sim_step gauss [veh] s
         = Some ([veh], s', [SetColor veh (color e);
                             SetLaneChangeMode veh (lane_change_mode e)]) /\
       cars_waiting_for_toll s' = cars_waiting_for_toll s /\
       rng s' = S (rng s) /\
       py_setitem (toll_wait_time s) (get_lane sim veh)
         (py_max2 0
            ((if in_fast_track (get_lane sim veh)
              then MEAN_SECONDS_WAIT_AT_FAST_TRACK
              else MEAN_SECONDS_WAIT_AT_TOLL) / sim_step
             + 1 / sim_step * gauss (rng s)))
         = Some (toll_wait_time s')).
Proof.
  split.
  - intros sim lane states veh pos s Hpos Hmem.
    unfold toll_car. rewrite (proj2 (qltb_iff _ _) Hpos).
    cbv [bind get ret put setColor getColor setLaneChangeMode lift].
    rewrite Hmem. cbv [negb]; cbv beta iota.
    eexists. split; [reflexivity|]. simpl.
    rewrite String.eqb_refl. repeat split; reflexivity.
  - intros sim sim_step gauss veh e s Hedge Hg Hlane.
    cbn [toll_release].
    rewrite (proj2 (String.eqb_eq _ _) Hedge).
    cbv [bind get ret setColor setLaneChangeMode raise
         np_random_normal set_toll_wait].
    rewrite Hg.
    destruct (py_setitem_Some (toll_wait_time s) (get_lane sim veh)
                (py_max2 0
                   ((if in_fast_track (get_lane sim veh)
                     then MEAN_SECONDS_WAIT_AT_FAST_TRACK
                     else MEAN_SECONDS_WAIT_AT_TOLL) / sim_step
                    + 1 / sim_step * gauss (rng s))) Hlane) as [wl Hwl].
    destruct (in_fast_track (get_lane sim veh)); cbv [negb]; cbv beta iota;
      simpl toll_wait_time; simpl rng; rewrite Hwl;
      eexists; (split; [reflexivity|]); simpl; auto.
Qed.

Lemma toll_registration_and_redraw_witness :
  (exists s',
     toll_car two_car_sim 3 (repeat "G"%string NUM_TOLL_LANES) ("V3"%string, 105)
       waiting_state
       = Some (repeat "G"%string NUM_TOLL_LANES, s',
               [SetLaneChangeMode "V3" 512; SetColor "V3" (255, 0, 255, 0)%Z]) /\
     cars_waiting_for_toll s'
       = dict_set (cars_waiting_for_toll waiting_state) "V3"
           (mkSaved (get_lane_change_mode two_car_sim "V3")
                    (traci_color waiting_state "V3")) /\
     traci_color s' "V3" = (255, 0, 255, 0)%Z /\
     toll_wait_time s' = toll_wait_time waiting_state /\
     rng s' = rng waiting_state)
  /\
  (exists s',
     toll_release two_car_sim (1#10) (fun _ => 1) ["V2"%string] waiting_state
       = Some (["V2"%string], s', [SetColor "V2" (color (mkSaved 7 yellow));
                   SetLaneChangeMode "V2" (lane_change_mode (mkSaved 7 yellow))]) /\
     cars_waiting_for_toll s' = cars_waiting_for_toll waiting_state /\
     rng s' = S (rng waiting_state) /\
     py_setitem (toll_wait_time waiting_state) (get_lane two_car_sim "V2")
       (py_max2 0
          ((if in_fast_track (get_lane two_car_sim "V2")
            then MEAN_SECONDS_WAIT_AT_FAST_TRACK
            else MEAN_SECONDS_WAIT_AT_TOLL) / (1#10)
           + 1 / (1#10) * (fun _ => 1) (rng waiting_state)))
       = Some (toll_wait_time s')).
Proof.
  destruct toll_registration_and_redraw as [Hreg Hrel]. split.
  - apply (Hreg two_car_sim 3%nat (repeat "G"%string NUM_TOLL_LANES) "V3"%string 105
             waiting_state).
    + vm_compute. reflexivity.
    + reflexivity.
  - apply (Hrel two_car_sim (1#10) (fun _ => 1) "V2"%string (mkSaved 7 yellow)
             waiting_state).
    + reflexivity.
    + reflexivity.
    + simpl. lia.
Defined.

(** Claim C6: the ramp-meter coordinator tests membership in the toll
    registry, not in its own, so a car staying past RAMP_METER_AREA before
    the ramp meter is registered again at each step: its saved colour is
    overwritten with the marking colour (0, 255, 255, 0), and that colour,
    not the car's original one, is what is sent back when the car passes
    the ramp meter. *)
Lemma ramp_registry_overwritten :
  match ramp_meter_lane_change_control (ramp_sim EDGE_BEFORE_RAMP_METER 90)
          (start_state [] (repeat 0 NUM_TOLL_LANES)) with
  | Some (_, s1, _) =>
    dict_get (cars_before_ramp s1) "V1" = Some (mkSaved 1621 yellow) /\
    match ramp_meter_lane_change_control (ramp_sim EDGE_BEFORE_RAMP_METER 95) s1
    with
    | Some (_, s2, _) =>
      dict_get (cars_before_ramp s2) "V1" = Some (mkSaved 1621 (0, 255, 255, 0)%Z)
      /\ match ramp_meter_lane_change_control (ramp_sim EDGE_AFTER_RAMP_METER 5) s2
         with
         | Some (_, s3, o3) =>
           o3 = [SetColor "V1" (0, 255, 255, 0)%Z; SetLaneChangeMode "V1" 1621]
           /\ dict_get (cars_before_ramp s3) "V1" = None
         | None => False
         end
    | None => False
    end
  | None => False
  end.
Proof. vm_compute. repeat split. Qed.

End BridgeClaims.


(** ** Facts about [additional_command] and the two coordinators *)
Module EnvFacts.
Import BayBridge BayBridgeEnv BridgeFacts.

Lemma ed_get_set d k x k' :
  ed_get (ed_set d k x) k' = if String.eqb k' k then Some x else ed_get d k'.
Proof.
  induction d as [|[k0 x0] r IH]; simpl.
  - reflexivity.
  - destruct (String.eqb_spec k k0) as [<-|Hne]; simpl.
    + destruct (String.eqb k' k); reflexivity.
    + rewrite IH. destruct (String.eqb_spec k' k0) as [->|Hne'].
      * destruct (String.eqb_spec k0 k); [congruence|reflexivity].
      * reflexivity.
Qed.

Lemma ed_get_fold_set ks x d0 e :
  ed_get (fold_left (fun d k => ed_set d k x) ks d0) e =
  if existsb (String.eqb e) ks then Some x else ed_get d0 e.
Proof.
  revert d0. induction ks as [|k ks IH]; intro d0; simpl; [reflexivity|].
  rewrite IH, ed_get_set. destruct (String.eqb e k), (existsb (String.eqb e) ks);
    reflexivity.
Qed.

Lemma edge_dict_init_get e :
  ed_get edge_dict_init e =
  if existsb (String.eqb e) EDGE_LIST then Some empty_lanes else None.
Proof. unfold edge_dict_init. rewrite ed_get_fold_set. reflexivity. Qed.

Lemma py_append_at_None {A} (l : list (list A)) i x :
  py_append_at l i x = None <-> (length l <= i)%nat.
Proof.
  revert i. induction l as [|y r IH]; intros [|i]; simpl; split; intro H;
    try (reflexivity || lia || discriminate).
  - destruct (py_append_at r i x) eqn:E; simpl in H; [discriminate|].
    apply IH in E. lia.
  - assert (E : py_append_at r i x = None) by (apply IH; lia).
    rewrite E. reflexivity.
Qed.

Lemma py_append_at_Some {A} (l : list (list A)) i x l' :
  py_append_at l i x = Some l' ->
  length l' = length l /\
  forall j, nth j l' [] = if Nat.eqb j i then nth j l [] ++ [x] else nth j l [].
Proof.
  revert i l'. induction l as [|y r IH]; intros [|i] l' H; simpl in H;
    try discriminate.
  - injection H as <-. split; [reflexivity|]. intros [|j]; reflexivity.
  - destruct (py_append_at r i x) eqn:E; simpl in H; [|discriminate].
    injection H as <-. destruct (IH _ _ E) as [Hl Hn].
    split; [simpl; congruence|]. intros [|j]; [reflexivity|]. apply Hn.
Qed.

Section Build.
Variable sim : Sim.

Lemma pairs_app p v e lane :
  map (fun w => (w, get_position sim w))
    (filter (fun w => String.eqb (get_edge sim w) e && Nat.eqb (get_lane sim w) lane)
       (p ++ [v]))
  = map (fun w => (w, get_position sim w))
      (filter (fun w => String.eqb (get_edge sim w) e && Nat.eqb (get_lane sim w) lane) p)
    ++ (if String.eqb (get_edge sim v) e && Nat.eqb (get_lane sim v) lane
        then [(v, get_position sim v)] else []).
Proof.
  rewrite filter_app, map_app. simpl.
  destruct (String.eqb (get_edge sim v) e && Nat.eqb (get_lane sim v) lane);
    reflexivity.
Qed.

Lemma pairs_none p e lane :
  (forall v, In v p -> get_edge sim v <> e) ->
  filter (fun w => String.eqb (get_edge sim w) e && Nat.eqb (get_lane sim w) lane) p
  = [].
Proof.
  induction p as [|w p IH]; intro H; simpl; [reflexivity|].
  destruct (String.eqb_spec (get_edge sim w) e) as [He|He].
  - exfalso. apply (H w); [left; reflexivity|exact He].
  - simpl. apply IH. intros v Hv. apply H. right; exact Hv.
Qed.

(** The invariant of the loop of [additional_command] after the vehicles [p]. *)
Lemma edge_dict_add_step p d lc v :
  lc = filter (fun w => String.eqb (get_edge sim w) "124952171"
                        && Nat.eqb (get_lane sim w) 1) p ->
  (forall e, match ed_get d e with
    | Some lanes =>
      (existsb (String.eqb e) EDGE_LIST = true \/
       exists w, In w p /\ get_edge sim w = e) /\
      length lanes = MAX_LANES /\
      forall lane, (lane < MAX_LANES)%nat ->
        nth lane lanes [] =
        map (fun w => (w, get_position sim w))
          (filter (fun w => String.eqb (get_edge sim w) e
                            && Nat.eqb (get_lane sim w) lane) p)
    | None =>
      existsb (String.eqb e) EDGE_LIST = false /\
      forall w, In w p -> get_edge sim w <> e
    end) ->
  if Nat.ltb (get_lane sim v) MAX_LANES then
    exists d' lc', edge_dict_add sim (Some (d, lc)) v = Some (d', lc') /\
    lc' = filter (fun w => String.eqb (get_edge sim w) "124952171"
                           && Nat.eqb (get_lane sim w) 1) (p ++ [v]) /\
    (forall e, match ed_get d' e with
      | Some lanes =>
        (existsb (String.eqb e) EDGE_LIST = true \/
         exists w, In w (p ++ [v]) /\ get_edge sim w = e) /\
        length lanes = MAX_LANES /\
        forall lane, (lane < MAX_LANES)%nat ->
          nth lane lanes [] =
          map (fun w => (w, get_position sim w))
            (filter (fun w => String.eqb (get_edge sim w) e
                              && Nat.eqb (get_lane sim w) lane) (p ++ [v]))
      | None =>
        existsb (String.eqb e) EDGE_LIST = false /\
        forall w, In w (p ++ [v]) -> get_edge sim w <> e
      end)
  else edge_dict_add sim (Some (d, lc)) v = None.
Proof.
  intros Hlc Hinv.
  set (edge := get_edge sim v).
  set (d1 := match ed_get d edge with
             | Some _ => d
             | None => ed_set d edge empty_lanes
             end).
  assert (Hd1 : exists lanes0, ed_get d1 edge = Some lanes0 /\
            length lanes0 = MAX_LANES /\
            (forall lane, (lane < MAX_LANES)%nat ->
              nth lane lanes0 [] =
              map (fun w => (w, get_position sim w))
                (filter (fun w => String.eqb (get_edge sim w) edge
                                  && Nat.eqb (get_lane sim w) lane) p))).
  { subst d1. specialize (Hinv edge).
    destruct (ed_get d edge) as [lanes|] eqn:E.
    - exists lanes. split; [exact E|]. destruct Hinv as (_ & Hl & Hn).
      split; assumption.
    - exists empty_lanes. rewrite ed_get_set, String.eqb_refl.
      split; [reflexivity|]. split; [reflexivity|].
      intros lane _. destruct Hinv as [_ Hn]. rewrite pairs_none by exact Hn.
      unfold empty_lanes. rewrite nth_repeat. reflexivity. }
  assert (Hd1o : forall e, e <> edge -> ed_get d1 e = ed_get d e).
  { intros e He. subst d1. destruct (ed_get d edge); [reflexivity|].
    rewrite ed_get_set. apply String.eqb_neq in He. rewrite He. reflexivity. }
  destruct Hd1 as (lanes0 & Hg0 & Hl0 & Hn0).
  unfold edge_dict_add. fold edge. fold d1. rewrite Hg0.
  destruct (Nat.ltb_spec (get_lane sim v) MAX_LANES) as [Hlt|Hge].
  - destruct (py_append_at lanes0 (get_lane sim v) (v, get_position sim v))
      as [lanes'|] eqn:Ea.
    2:{ apply py_append_at_None in Ea. lia. }
    destruct (py_append_at_Some _ _ _ _ Ea) as [Hla Hna].
    eexists; eexists; split; [reflexivity|]. split.
    { rewrite Hlc, filter_app. simpl. fold edge.
      destruct (String.eqb edge "124952171" && Nat.eqb (get_lane sim v) 1);
        [reflexivity|]. rewrite app_nil_r. reflexivity. }
    intro e. rewrite ed_get_set.
    destruct (String.eqb_spec e edge) as [->|Hne].
    + split; [right; exists v; split; [apply in_or_app; right; left; reflexivity|reflexivity]|].
      split; [congruence|].
      intros lane Hlane. rewrite Hna, pairs_app. fold edge. rewrite String.eqb_refl.
      simpl. rewrite (Nat.eqb_sym (get_lane sim v) lane).
      destruct (Nat.eqb lane (get_lane sim v)); rewrite Hn0 by exact Hlane;
        [reflexivity|rewrite app_nil_r; reflexivity].
    + rewrite Hd1o by exact Hne. specialize (Hinv e).
      assert (Hev : String.eqb (get_edge sim v) e = false)
        by (apply String.eqb_neq; intro H; apply Hne; rewrite <- H; reflexivity).
      destruct (ed_get d e) as [lanes|].
      * destruct Hinv as (Hk & Hl & Hn). split.
        { destruct Hk as [Hk|(w & Hw & Hwe)]; [left; exact Hk|right].
          exists w. split; [apply in_or_app; left; exact Hw|exact Hwe]. }
        split; [exact Hl|]. intros lane Hlane. rewrite pairs_app, Hev. simpl.
        rewrite app_nil_r. apply Hn. exact Hlane.
      * destruct Hinv as [Hk Hw]. split; [exact Hk|].
        intros w Hin. apply in_app_or in Hin. destruct Hin as [Hin|[<-|[]]].
        -- apply Hw. exact Hin.
        -- intro H. apply Hne. rewrite <- H. reflexivity.
  - destruct (py_append_at lanes0 (get_lane sim v) (v, get_position sim v))
      eqn:Ea; [|reflexivity].
    exfalso. assert (Hx : py_append_at lanes0 (get_lane sim v)
                            (v, get_position sim v) = None)
      by (apply py_append_at_None; lia).
    congruence.
Qed.

Lemma edge_dict_add_fold_none ids :
  fold_left (edge_dict_add sim) ids None = None.
Proof. induction ids as [|v ids IH]; [reflexivity|exact IH]. Qed.

Lemma edge_dict_add_fold ids p d lc :
  lc = filter (fun w => String.eqb (get_edge sim w) "124952171"
                        && Nat.eqb (get_lane sim w) 1) p ->
  (forall e, match ed_get d e with
    | Some lanes =>
      (existsb (String.eqb e) EDGE_LIST = true \/
       exists w, In w p /\ get_edge sim w = e) /\
      length lanes = MAX_LANES /\
      forall lane, (lane < MAX_LANES)%nat ->
        nth lane lanes [] =
        map (fun w => (w, get_position sim w))
          (filter (fun w => String.eqb (get_edge sim w) e
                            && Nat.eqb (get_lane sim w) lane) p)
    | None =>
      existsb (String.eqb e) EDGE_LIST = false /\
      forall w, In w p -> get_edge sim w <> e
    end) ->
  match fold_left (edge_dict_add sim) ids (Some (d, lc)) with
  | None => exists v, In v ids /\ (MAX_LANES <= get_lane sim v)%nat
  | Some (d', lc') =>
    (forall v, In v ids -> (get_lane sim v < MAX_LANES)%nat) /\
    lc' = filter (fun w => String.eqb (get_edge sim w) "124952171"
                           && Nat.eqb (get_lane sim w) 1) (p ++ ids) /\
    (forall e, match ed_get d' e with
      | Some lanes =>
        (existsb (String.eqb e) EDGE_LIST = true \/
         exists w, In w (p ++ ids) /\ get_edge sim w = e) /\
        length lanes = MAX_LANES /\
        forall lane, (lane < MAX_LANES)%nat ->
          nth lane lanes [] =
          map (fun w => (w, get_position sim w))
            (filter (fun w => String.eqb (get_edge sim w) e
                              && Nat.eqb (get_lane sim w) lane) (p ++ ids))
      | None =>
        existsb (String.eqb e) EDGE_LIST = false /\
        forall w, In w (p ++ ids) -> get_edge sim w <> e
      end)
  end.
Proof.
  revert p d lc. induction ids as [|v ids IH]; intros p d lc Hlc Hinv.
  - simpl. rewrite app_nil_r. split; [intros _ []|]. split; assumption.
  - cbn [fold_left]. pose proof (edge_dict_add_step p d lc v Hlc Hinv) as Hs.
    destruct (Nat.ltb_spec (get_lane sim v) MAX_LANES) as [Hlt|Hge].
    + destruct Hs as (d' & lc' & Ha & Hlc' & Hinv'). rewrite Ha.
      specialize (IH (p ++ [v]) d' lc' Hlc' Hinv').
      rewrite <- app_assoc in IH. simpl in IH.
      destruct (fold_left (edge_dict_add sim) ids (Some (d', lc')))
        as [[d'' lc'']|].
      * destruct IH as (Hl & Hr). split; [|exact Hr].
        intros w [<-|Hw]; [exact Hlt|apply Hl; exact Hw].
      * destruct IH as (w & Hw & Hwl). exists w. split; [right; exact Hw|exact Hwl].
    + rewrite Hs, edge_dict_add_fold_none. exists v. split; [left; reflexivity|lia].
Qed.

Lemma build_edge_dict_spec :
  match build_edge_dict sim with
  | None => exists v, In v (get_ids sim) /\ (MAX_LANES <= get_lane sim v)%nat
  | Some (d, lc) =>
    (forall v, In v (get_ids sim) -> (get_lane sim v < MAX_LANES)%nat) /\
    lc = filter (fun w => String.eqb (get_edge sim w) "124952171"
                          && Nat.eqb (get_lane sim w) 1) (get_ids sim) /\
    (forall e, match ed_get d e with
      | Some lanes =>
        (existsb (String.eqb e) EDGE_LIST = true \/
         exists w, In w (get_ids sim) /\ get_edge sim w = e) /\
        length lanes = MAX_LANES /\
        forall lane, (lane < MAX_LANES)%nat ->
          nth lane lanes [] = edge_dict sim e lane
      | None =>
        existsb (String.eqb e) EDGE_LIST = false /\
        forall w, In w (get_ids sim) -> get_edge sim w <> e
      end)
  end.
Proof.
  unfold build_edge_dict.
  refine (edge_dict_add_fold (get_ids sim) [] edge_dict_init [] eq_refl _).
  intro e. rewrite edge_dict_init_get.
  destruct (existsb (String.eqb e) EDGE_LIST) eqn:E.
  - split; [left; reflexivity|]. split; [reflexivity|].
    intros lane _. unfold empty_lanes. rewrite nth_repeat. reflexivity.
  - split; [reflexivity|]. intros w [].
Qed.

End Build.

Lemma dict_keys_get d v : In v (dict_keys d) -> exists e, dict_get d v = Some e.
Proof.
  induction d as [|[k x] r IH]; simpl; [intros []|].
  intros [->|Hin].
  - rewrite String.eqb_refl. eauto.
  - destruct (String.eqb v k); eauto.
Qed.

Lemma dict_mem_set d k x v :
  dict_mem (dict_set d k x) v = true -> v = k \/ dict_mem d v = true.
Proof.
  unfold dict_mem. destruct (String.eqb_spec v k) as [->|Hne]; [auto|].
  rewrite dict_get_set_other by (intro; apply Hne; symmetry; assumption). auto.
Qed.

Lemma py_setitem_None {A} (l : list A) i x :
  (length l <= i)%nat -> py_setitem l i x = None.
Proof.
  revert i. induction l as [|y r IH]; intros [|i] Hi; simpl in *; try lia;
    try reflexivity.
  rewrite IH by lia. reflexivity.
Qed.

Lemma py_setitem_bound (l : list Q) i x l' :
  Forall (fun w => -1 <= w) l -> -1 <= x -> py_setitem l i x = Some l' ->
  Forall (fun w => -1 <= w) l'.
Proof. apply py_setitem_Forall. Qed.

Lemma toll_car_more sim lane states car s st s' o :
  toll_car sim lane states car s = Some (st, s', o) ->
  cars_before_ramp s' = cars_before_ramp s /\
  length (toll_wait_time s') = length (toll_wait_time s) /\
  (Forall (fun w => -1 <= w) (toll_wait_time s) ->
   Forall (fun w => -1 <= w) (toll_wait_time s')) /\
  length st = length states /\
  (forall v, dict_mem (cars_waiting_for_toll s') v = true ->
   dict_mem (cars_waiting_for_toll s) v = true \/
   (v = fst car /\ TOLL_BOOTH_AREA < snd car)) /\
  (forall j, j <> lane \/ snd car <= 120 -> nth_error st j = nth_error states j).
Proof.
  destruct car as [veh pos]. unfold toll_car. intro H. simpl fst; simpl snd.
  destruct (qltb TOLL_BOOTH_AREA pos) eqn:Hb.
  2:{ cbv [ret] in H. injection H as <- <- <-.
      repeat split; auto. }
  apply qltb_iff in Hb.
  cbv [bind get ret put setColor getColor setLaneChangeMode lift
       get_toll_wait set_toll_wait] in H.
  destruct (negb (dict_mem (cars_waiting_for_toll s) veh)) eqn:Hm.
  - injection H as <- <- <-. simpl.
    repeat split; auto.
    intros v Hv. apply dict_mem_set in Hv. destruct Hv as [->|Hv]; auto.
  - destruct (qltb 120 pos) eqn:H120.
    2:{ injection H as <- <- <-. repeat split; auto. }
    apply qltb_iff in H120.
    destruct (nth_error (toll_wait_time s) lane) as [w|] eqn:Hw; [|discriminate].
    destruct (qltb w 0) eqn:Hw0.
    + destruct (py_setitem states lane "G"%string) as [st1|] eqn:Hp;
        [|discriminate].
      injection H as <- <- <-.
      split; [reflexivity|]. split; [reflexivity|]. split; [auto|].
      split; [eapply py_setitem_length; exact Hp|].
      split; [auto|].
      intros j Hj. rewrite (py_setitem_nth _ _ _ _ j Hp).
      destruct (Nat.eqb_spec j lane); [|reflexivity].
      exfalso. destruct Hj as [Hj|Hj]; [contradiction|].
      apply (Qlt_not_le _ _ H120 Hj).
    + apply qltb_false in Hw0.
      destruct (py_setitem states lane "r"%string) as [st1|] eqn:Hp;
        [|discriminate].
      destruct (py_setitem (toll_wait_time s) lane (w - 1)) as [wl|] eqn:Hq;
        [|discriminate].
      injection H as <- <- <-. simpl.
      split; [reflexivity|]. split; [eapply py_setitem_length; exact Hq|].
      split.
      { intro Hf. eapply py_setitem_bound; [exact Hf| |exact Hq].
        apply (Qplus_le_l _ _ 1). ring_simplify.
        apply (Qle_trans _ 0); [discriminate|exact Hw0]. }
      split; [eapply py_setitem_length; exact Hp|].
      split; [auto|].
      intros j Hj. rewrite (py_setitem_nth _ _ _ _ j Hp).
      destruct (Nat.eqb_spec j lane); [|reflexivity].
      exfalso. destruct Hj as [Hj|Hj]; [contradiction|].
      apply (Qlt_not_le _ _ H120 Hj).
Qed.

Lemma toll_car_some sim lane states car s :
  (lane < length states)%nat -> (lane < length (toll_wait_time s))%nat ->
  exists r, toll_car sim lane states car s = Some r.
Proof.
  intros Hs Hw. destruct car as [veh pos]. unfold toll_car.
  destruct (qltb TOLL_BOOTH_AREA pos); [|eexists; reflexivity].
  cbv [bind get ret put setColor getColor setLaneChangeMode lift
       get_toll_wait set_toll_wait].
  destruct (negb (dict_mem (cars_waiting_for_toll s) veh));
    [eexists; reflexivity|].
  destruct (qltb 120 pos); [|eexists; reflexivity].
  destruct (nth_error (toll_wait_time s) lane) as [w|] eqn:E.
  2:{ apply nth_error_None in E. lia. }
  destruct (qltb w 0).
  - destruct (py_setitem_Some states lane "G"%string Hs) as [l' ->].
    eexists; reflexivity.
  - destruct (py_setitem_Some states lane "r"%string Hs) as [l' ->].
    destruct (py_setitem_Some (toll_wait_time s) lane (w - 1) Hw) as [l2 ->].
    eexists; reflexivity.
Qed.

Lemma toll_cars_more sim lane cars states s st s' o :
  toll_cars sim lane states cars s = Some (st, s', o) ->
  cars_before_ramp s' = cars_before_ramp s /\
  length (toll_wait_time s') = length (toll_wait_time s) /\
  (Forall (fun w => -1 <= w) (toll_wait_time s) ->
   Forall (fun w => -1 <= w) (toll_wait_time s')) /\
  length st = length states /\
  (forall v, dict_mem (cars_waiting_for_toll s') v = true ->
   dict_mem (cars_waiting_for_toll s) v = true \/
   exists pos, In (v, pos) cars /\ TOLL_BOOTH_AREA < pos) /\
  (forall j, j <> lane \/ (forall v pos, In (v, pos) cars -> pos <= 120) ->
   nth_error st j = nth_error states j).
Proof.
  revert states s st s' o.
  induction cars as [|car rest IH]; intros states s st s' o H; simpl in H.
  - injection H as <- <- <-. repeat split; auto; intros; reflexivity.
  - binv H. subst o.
    destruct (toll_car_more _ _ _ _ _ _ _ _ Hm)
      as (Hr1 & Hl1 & Hb1 & Hs1 & Hk1 & Hn1).
    destruct (IH _ _ _ _ _ H) as (Hr2 & Hl2 & Hb2 & Hs2 & Hk2 & Hn2).
    split; [congruence|]. split; [congruence|]. split; [auto|].
    split; [congruence|]. split.
    + intros v Hv. destruct (Hk2 v Hv) as [Hv1|(pos & Hin & Hp)].
      * destruct (Hk1 v Hv1) as [Hv2|(-> & Hp)]; [left; exact Hv2|].
        right. exists (snd car). split; [left; destruct car; reflexivity|exact Hp].
      * right. exists pos. split; [right; exact Hin|exact Hp].
    + intros j Hj. rewrite Hn2, Hn1; [reflexivity| |].
      * destruct Hj as [Hj|Hj]; [left; exact Hj|right].
        apply (Hj (fst car)). left. destruct car; reflexivity.
      * destruct Hj as [Hj|Hj]; [left; exact Hj|right].
        intros v pos Hin. apply (Hj v). right; exact Hin.
Qed.

Lemma toll_cars_some sim lane cars states s :
  (lane < length states)%nat -> (lane < length (toll_wait_time s))%nat ->
  exists r, toll_cars sim lane states cars s = Some r.
Proof.
  revert states s. induction cars as [|car rest IH]; intros states s Hs Hw;
    simpl; [eexists; reflexivity|].
  destruct (toll_car_some sim lane states car s Hs Hw) as [[[st s1] o1] E].
  destruct (toll_car_more _ _ _ _ _ _ _ _ E) as (_ & Hl1 & _ & Hs1 & _).
  destruct (IH st s1) as [[[st2 s2] o2] E2]; [lia|lia|].
  unfold bind. rewrite E, E2. eexists; reflexivity.
Qed.

Lemma toll_lanes_more sim lanes states s st s' o :
  toll_lanes sim lanes states s = Some (st, s', o) ->
  cars_before_ramp s' = cars_before_ramp s /\
  length (toll_wait_time s') = length (toll_wait_time s) /\
  (Forall (fun w => -1 <= w) (toll_wait_time s) ->
   Forall (fun w => -1 <= w) (toll_wait_time s')) /\
  length st = length states /\
  (forall v, dict_mem (cars_waiting_for_toll s') v = true ->
   dict_mem (cars_waiting_for_toll s) v = true \/
   (get_edge sim v = EDGE_BEFORE_TOLL /\ TOLL_BOOTH_AREA < get_position sim v)) /\
  (forall j, (forall lane, In lane lanes -> lane <> j \/
                (forall v pos, In (v, pos) (edge_dict sim EDGE_BEFORE_TOLL lane) ->
                 pos <= 120)) ->
   nth_error st j = nth_error states j).
Proof.
  revert states s st s' o.
  induction lanes as [|lane rest IH]; intros states s st s' o H; simpl in H.
  - injection H as <- <- <-. repeat split; auto; intros; reflexivity.
  - binv H. subst o.
    destruct (toll_cars_more _ _ _ _ _ _ _ _ Hm)
      as (Hr1 & Hl1 & Hb1 & Hs1 & Hk1 & Hn1).
    destruct (IH _ _ _ _ _ H) as (Hr2 & Hl2 & Hb2 & Hs2 & Hk2 & Hn2).
    split; [congruence|]. split; [congruence|]. split; [auto|].
    split; [congruence|]. split.
    + intros v Hv. destruct (Hk2 v Hv) as [Hv1|Hv1]; [|right; exact Hv1].
      destruct (Hk1 v Hv1) as [Hv2|(pos & Hin & Hp)]; [left; exact Hv2|].
      right. pose proof (edge_dict_edge _ _ _ _ _ Hin) as He.
      split; [exact He|].
      unfold edge_dict in Hin. apply in_map_iff in Hin.
      destruct Hin as (v' & Heq & _). injection Heq as -> <-. exact Hp.
    + intros j Hj. rewrite Hn2, Hn1; [reflexivity| |].
      * destruct (Hj lane (or_introl eq_refl)) as [Hne|Hp];
          [left; intro; apply Hne; symmetry; assumption|right; exact Hp].
      * intros l Hl. apply Hj. right; exact Hl.
Qed.

Lemma toll_lanes_some sim lanes states s :
  (forall lane, In lane lanes ->
   (lane < length states)%nat /\ (lane < length (toll_wait_time s))%nat) ->
  exists r, toll_lanes sim lanes states s = Some r.
Proof.
  revert states s. induction lanes as [|lane rest IH]; intros states s Hl;
    simpl; [eexists; reflexivity|].
  destruct (Hl lane (or_introl eq_refl)) as [Hs Hw].
  destruct (toll_cars_some sim lane (edge_dict sim EDGE_BEFORE_TOLL lane)
              states s Hs Hw) as [[[st s1] o1] E].
  destruct (toll_cars_more _ _ _ _ _ _ _ _ E) as (_ & Hl1 & _ & Hs1 & _).
  destruct (IH st s1) as [[[st2 s2] o2] E2].
  { intros l Hin. destruct (Hl l (or_intror Hin)). lia. }
  unfold bind. rewrite E, E2. eexists; reflexivity.
Qed.

Lemma py_max2_0 w : 0 <= py_max2 0 w.
Proof.
  unfold py_max2. destruct (qltb 0 w) eqn:E; [|apply Qle_refl].
  apply qltb_iff in E. apply Qlt_le_weak. exact E.
Qed.

Lemma toll_release_more sim sim_step gauss keys s left s' o :
  toll_release sim sim_step gauss keys s = Some (left, s', o) ->
  cars_before_ramp s' = cars_before_ramp s /\
  length (toll_wait_time s') = length (toll_wait_time s) /\
  (Forall (fun w => -1 <= w) (toll_wait_time s) ->
   Forall (fun w => -1 <= w) (toll_wait_time s')).
Proof.
  revert s left s' o.
  induction keys as [|k rest IH]; intros s left s' o H; cbn [toll_release] in H.
  - injection H as <- <- <-. auto.
  - apply bind_inv in H; destruct H as (a & s0 & o1 & o2 & Hm & H & Ho).
    apply bind_inv in H; destruct H as (a0 & s1 & o3 & o4 & Hm0 & H & Ho0).
    cbv [ret] in H. injection H as <- <- <-.
    destruct (IH _ _ _ _ Hm0) as (Hr2 & Hl2 & Hb2).
    assert (Hh : cars_before_ramp s0 = cars_before_ramp s /\
                 length (toll_wait_time s0) = length (toll_wait_time s) /\
                 (Forall (fun w => -1 <= w) (toll_wait_time s) ->
                  Forall (fun w => -1 <= w) (toll_wait_time s0))).
    { destruct (String.eqb (get_edge sim k) EDGE_AFTER_TOLL).
      - cbv [bind get ret setColor setLaneChangeMode raise
             np_random_normal set_toll_wait] in Hm.
        destruct (dict_get (cars_waiting_for_toll s) k) as [e|];
          [|discriminate].
        destruct (negb (in_fast_track (get_lane sim k)));
          (destruct (py_setitem _ _ _) as [wl|] eqn:Hq; [|discriminate]);
          injection Hm as <- <- <-; simpl in *;
          (split; [reflexivity|]);
          (split; [eapply py_setitem_length; exact Hq|]);
          intro Hf; (eapply py_setitem_bound; [exact Hf| |exact Hq]);
          apply (Qle_trans _ 0); [discriminate|apply py_max2_0|
                                  discriminate|apply py_max2_0].
      - cbv [ret] in Hm. injection Hm as <- <- <-. auto. }
    destruct Hh as (Hr1 & Hl1 & Hb1).
    split; [congruence|]. split; [congruence|]. auto.
Qed.

Lemma toll_release_some sim sim_step gauss keys s :
  (forall k, In k keys ->
   dict_get (cars_waiting_for_toll s) k <> None /\
   (get_edge sim k = EDGE_AFTER_TOLL ->
    (get_lane sim k < length (toll_wait_time s))%nat)) ->
  exists r, toll_release sim sim_step gauss keys s = Some r.
Proof.
  revert s. induction keys as [|k rest IH]; intros s Hk;
    cbn [toll_release]; [eexists; reflexivity|].
  destruct (Hk k (or_introl eq_refl)) as [Hg Hl].
  assert (Hh : exists a s1 o1,
    (if String.eqb (get_edge sim k) EDGE_AFTER_TOLL then
       s0 <- get ;;
       match dict_get (cars_waiting_for_toll s0) k with
       | None => raise
       | Some e =>
         setColor k (color e) ;;;
         setLaneChangeMode k (lane_change_mode e) ;;;
         w <- (if negb (in_fast_track (get_lane sim k)) then
                 np_random_normal gauss
                   (MEAN_SECONDS_WAIT_AT_TOLL / sim_step) (1 / sim_step)
               else
                 np_random_normal gauss
                   (MEAN_SECONDS_WAIT_AT_FAST_TRACK / sim_step)
                   (1 / sim_step)) ;;
         set_toll_wait (get_lane sim k) (py_max2 0 w) ;;;
         ret [k]
       end
     else ret []) s = Some (a, s1, o1)).
  { destruct (String.eqb_spec (get_edge sim k) EDGE_AFTER_TOLL) as [He|He].
    - specialize (Hl He).
      cbv [bind get ret setColor setLaneChangeMode raise
           np_random_normal set_toll_wait].
      destruct (dict_get (cars_waiting_for_toll s) k) as [e|];
        [|contradiction].
      cbn [toll_wait_time set_rng set_color_of].
      destruct (negb (in_fast_track (get_lane sim k)));
        cbv beta iota; cbn [toll_wait_time set_rng set_color_of];
        match goal with
        | |- context [py_setitem (toll_wait_time s) ?i ?x] =>
          destruct (py_setitem_Some (toll_wait_time s) i x Hl) as [l' ->]
        end; eexists; eexists; eexists; reflexivity.
    - eexists; eexists; eexists; reflexivity. }
  destruct Hh as (a & s1 & o1 & Hh).
  assert (Hs1 : cars_waiting_for_toll s1 = cars_waiting_for_toll s /\
                length (toll_wait_time s1) = length (toll_wait_time s)).
  { assert (Hfull : toll_release sim sim_step gauss [k] s = Some (a ++ [], s1, o1 ++ [])).
    { cbn [toll_release]. unfold bind at 1. rewrite Hh. reflexivity. }
    destruct (toll_release_inv _ _ _ _ _ _ _ _ Hfull) as (Hr & _).
    destruct (toll_release_more _ _ _ _ _ _ _ _ Hfull) as (_ & Hl' & _).
    split; assumption. }
  destruct Hs1 as [Hr1 Hl1].
  destruct (IH s1) as [[[b s2] o2] E2].
  { intros k' Hk'. rewrite Hr1, Hl1. apply Hk. right; exact Hk'. }
  unfold bind at 1. rewrite Hh. unfold bind. rewrite E2.
  eexists; reflexivity.
Qed.

Lemma toll_release_fails sim sim_step gauss keys s :
  (forall k, In k keys -> dict_get (cars_waiting_for_toll s) k <> None) ->
  (exists k, In k keys /\ get_edge sim k = EDGE_AFTER_TOLL /\
             (length (toll_wait_time s) <= get_lane sim k)%nat) ->
  toll_release sim sim_step gauss keys s = None.
Proof.
  revert s. induction keys as [|k0 rest IH]; intros s Hk Hbad.
  - destruct Hbad as (k & [] & _).
  - cbn [toll_release]. unfold bind at 1.
    match goal with
    | |- match ?h s with _ => _ end = None =>
      destruct (h s) as [[[a s1] o1]|] eqn:Eh; [|reflexivity]
    end.
    assert (Hs1 : cars_waiting_for_toll s1 = cars_waiting_for_toll s /\
                  length (toll_wait_time s1) = length (toll_wait_time s)).
    { assert (Hfull : toll_release sim sim_step gauss [k0] s
                      = Some (a ++ [], s1, o1 ++ [])).
      { cbn [toll_release]. unfold bind at 1. rewrite Eh. reflexivity. }
      destruct (toll_release_inv _ _ _ _ _ _ _ _ Hfull) as (Hr & _).
      destruct (toll_release_more _ _ _ _ _ _ _ _ Hfull) as (_ & Hl' & _).
      split; assumption. }
    destruct Hs1 as [Hr1 Hl1].
    destruct Hbad as (k & [->|Hin] & He & Hl).
    + exfalso. rewrite He, String.eqb_refl in Eh.
      cbv [bind get ret setColor setLaneChangeMode raise
           np_random_normal set_toll_wait] in Eh.
      destruct (dict_get (cars_waiting_for_toll s) k) as [e|];
        [|discriminate].
      destruct (negb (in_fast_track (get_lane sim k)));
        cbv beta iota in Eh; cbn [toll_wait_time set_rng set_color_of] in Eh;
        rewrite py_setitem_None in Eh by exact Hl; discriminate.
    + cbv beta. unfold bind at 1. rewrite IH.
      * reflexivity.
      * intros k' Hk'. rewrite Hr1. apply Hk. right; exact Hk'.
      * exists k. rewrite Hl1. auto.
Qed.

Lemma toll_delete_more ks s u s' o :
  toll_delete ks s = Some (u, s', o) ->
  cars_before_ramp s' = cars_before_ramp s /\
  toll_wait_time s' = toll_wait_time s.
Proof.
  revert s u s' o.
  induction ks as [|k rest IH]; intros s u s' o H; cbn [toll_delete] in H.
  - injection H as <- <- <-. auto.
  - apply bind_inv in H; destruct H as (a & s0 & o0 & o1 & Hm & H & Ho).
    cbv [get] in Hm. injection Hm as <- <- <-.
    apply bind_inv in H; destruct H as (a0 & s1 & o2 & o3 & Hm & H & Ho').
    destruct (dict_del (cars_waiting_for_toll s) k) as [d|] eqn:Hd;
      [|discriminate].
    cbv [put] in Hm. injection Hm as <- <- <-.
    destruct (IH _ _ _ _ H) as (Hr & Hw). simpl in *. auto.
Qed.

Lemma dict_del_some d k : dict_get d k <> None -> exists d', dict_del d k = Some d'.
Proof.
  induction d as [|[k' x] r IH]; simpl; [congruence|].
  destruct (String.eqb k k'); [eauto|].
  intro H. destruct (IH H) as [d' ->]. simpl. eauto.
Qed.

Lemma toll_delete_some ks s :
  NoDup ks ->
  (forall k, In k ks -> dict_get (cars_waiting_for_toll s) k <> None) ->
  exists r, toll_delete ks s = Some r.
Proof.
  revert s. induction ks as [|k rest IH]; intros s Hnd Hk;
    cbn [toll_delete]; [eexists; reflexivity|].
  inversion Hnd as [|? ? Hnin Hnd']; subst.
  destruct (dict_del_some _ _ (Hk k (or_introl eq_refl))) as [d Hd].
  destruct (IH (set_toll_registry d s) Hnd') as [[[u s2] o2] E].
  { intros k' Hk'. simpl. intro Hn.
    assert (Hne : k <> k') by (intros ->; contradiction).
    apply (Hk k' (or_intror Hk')).
    rewrite <- (dict_del_get_other _ _ _ _ Hd Hne). exact Hn. }
  cbv [bind get put]. rewrite Hd. unfold bind in E. cbv [bind] in E.
  rewrite E. eexists; reflexivity.
Qed.

Lemma ramp_release_inv sim keys s left s' o :
  ramp_release sim keys s = Some (left, s', o) ->
  cars_before_ramp s' = cars_before_ramp s /\
  cars_waiting_for_toll s' = cars_waiting_for_toll s /\
  toll_wait_time s' = toll_wait_time s /\
  tl_state s' = tl_state s /\ rng s' = rng s /\
  Forall (fun c => is_tls_cmd c = false) o /\
  left = filter (fun v => String.eqb (get_edge sim v) EDGE_AFTER_RAMP_METER) keys /\
  (forall v, ~ In v keys -> for_veh v o = []) /\
  (forall v e, NoDup keys -> In v keys ->
   dict_get (cars_before_ramp s) v = Some e ->
   for_veh v o =
     if String.eqb (get_edge sim v) EDGE_AFTER_RAMP_METER
     then [SetColor v (color e); SetLaneChangeMode v (lane_change_mode e)]
     else []).
Proof.
  revert s left s' o.
  induction keys as [|k rest IH]; intros s left s' o H; cbn [ramp_release] in H.
  - injection H as <- <- <-. repeat split; auto.
    intros v e _ [].
  - apply bind_inv in H; destruct H as (a & s0 & o1 & o2 & Hm & H & Ho).
    apply bind_inv in H; destruct H as (a0 & s1 & o3 & o4 & Hm0 & H & Ho0).
    cbv [ret] in H. injection H as <- <- <-. subst o o2.
    rewrite app_nil_r.
    assert (Hhead :
      cars_before_ramp s0 = cars_before_ramp s /\
      cars_waiting_for_toll s0 = cars_waiting_for_toll s /\
      toll_wait_time s0 = toll_wait_time s /\
      tl_state s0 = tl_state s /\ rng s0 = rng s /\
      Forall (fun c => is_tls_cmd c = false) o1 /\
      a = (if String.eqb (get_edge sim k) EDGE_AFTER_RAMP_METER then [k] else []) /\
      (forall v, k <> v -> for_veh v o1 = []) /\
      (forall e, dict_get (cars_before_ramp s) k = Some e ->
       for_veh k o1 =
         if String.eqb (get_edge sim k) EDGE_AFTER_RAMP_METER
         then [SetColor k (color e); SetLaneChangeMode k (lane_change_mode e)]
         else [])).
    { destruct (String.eqb (get_edge sim k) EDGE_AFTER_RAMP_METER) eqn:Ek.
      - cbv [bind get ret setColor setLaneChangeMode raise] in Hm.
        destruct (dict_get (cars_before_ramp s) k) as [e|] eqn:Hg;
          [|discriminate].
        injection Hm as <- <- <-; simpl.
        do 5 (split; [reflexivity|]).
        split; [repeat constructor|]. split; [reflexivity|].
        split; [intros v Hne; unfold for_veh; simpl;
                apply String.eqb_neq in Hne;
                rewrite String.eqb_sym, Hne; reflexivity|].
        intros e' He'. injection He' as ->.
        unfold for_veh; simpl. rewrite String.eqb_refl. reflexivity.
      - cbv [ret] in Hm. injection Hm as <- <- <-.
        repeat split; auto. }
    destruct Hhead as (Hr1 & Ht1 & Hw1 & Hs1 & Hn1 & Hf1 & Ha1 & Hv1 & Hk1).
    destruct (IH _ _ _ _ Hm0)
      as (Hr2 & Ht2 & Hw2 & Hs2 & Hn2 & Hf2 & Ha2 & Hv2 & Hk2).
    do 5 (split; [congruence|]).
    split; [apply Forall_app; split; assumption|].
    split; [simpl; rewrite Ha1, Ha2;
            destruct (String.eqb (get_edge sim k) EDGE_AFTER_RAMP_METER);
            reflexivity|].
    split.
    + intros v Hv. rewrite for_veh_app, Hv1, Hv2; [reflexivity| |].
      * intro Hin. apply Hv. right; exact Hin.
      * intros ->. apply Hv. left; reflexivity.
    + intros v e Hnd Hin Hg. inversion Hnd as [|? ? Hnin Hnd']; subst.
      rewrite for_veh_app.
      destruct (String.eqb_spec k v) as [<-|Hne].
      * rewrite (Hk1 e Hg), (Hv2 k Hnin), app_nil_r. reflexivity.
      * destruct Hin as [Hin|Hin]; [contradiction|].
        rewrite (Hv1 v Hne), (Hk2 v e Hnd' Hin); [reflexivity|].
        rewrite Hr1. exact Hg.
Qed.

Lemma ramp_release_some sim keys s :
  (forall k, In k keys -> dict_get (cars_before_ramp s) k <> None) ->
  exists r, ramp_release sim keys s = Some r.
Proof.
  revert s. induction keys as [|k rest IH]; intros s Hk;
    cbn [ramp_release]; [eexists; reflexivity|].
  assert (Hh : exists a s1 o1,
    (if String.eqb (get_edge sim k) EDGE_AFTER_RAMP_METER then
       s0 <- get ;;
       match dict_get (cars_before_ramp s0) k with
       | None => raise
       | Some e =>
         setColor k (color e) ;;;
         setLaneChangeMode k (lane_change_mode e) ;;;
         ret [k]
       end
     else ret []) s = Some (a, s1, o1)).
  { destruct (String.eqb (get_edge sim k) EDGE_AFTER_RAMP_METER).
    - cbv [bind get ret setColor setLaneChangeMode raise].
      destruct (dict_get (cars_before_ramp s) k) as [e|] eqn:Hg.
      + eexists; eexists; eexists; reflexivity.
      + exfalso. exact (Hk k (or_introl eq_refl) Hg).
    - eexists; eexists; eexists; reflexivity. }
  destruct Hh as (a & s1 & o1 & Hh).
  assert (Hr1 : cars_before_ramp s1 = cars_before_ramp s).
  { assert (Hfull : ramp_release sim [k] s = Some (a ++ [], s1, o1 ++ [])).
    { cbn [ramp_release]. unfold bind at 1. rewrite Hh. reflexivity. }
    destruct (ramp_release_inv _ _ _ _ _ _ Hfull) as (Hr & _). exact Hr. }
  destruct (IH s1) as [[[b s2] o2] E2].
  { intros k' Hk'. rewrite Hr1. apply Hk. right; exact Hk'. }
  unfold bind at 1. rewrite Hh. cbv beta. unfold bind. rewrite E2.
  eexists; reflexivity.
Qed.

Lemma ramp_delete_inv ks s u s' o :
  ramp_delete ks s = Some (u, s', o) ->
  o = [] /\
  cars_waiting_for_toll s' = cars_waiting_for_toll s /\
  toll_wait_time s' = toll_wait_time s /\
  tl_state s' = tl_state s /\ rng s' = rng s /\
  (NoDup (dict_keys (cars_before_ramp s)) ->
   NoDup (dict_keys (cars_before_ramp s')) /\
   forall v, In v ks -> dict_get (cars_before_ramp s') v = None) /\
  (forall v, ~ In v ks ->
   dict_get (cars_before_ramp s') v = dict_get (cars_before_ramp s) v).
Proof.
  revert s u s' o.
  induction ks as [|k rest IH]; intros s u s' o H; cbn [ramp_delete] in H.
  - injection H as <- <- <-. repeat split; auto. intros _ [].
  - apply bind_inv in H; destruct H as (a & s0 & o0 & o1 & Hm & H & Ho).
    cbv [get] in Hm. injection Hm as <- <- <-.
    apply bind_inv in H; destruct H as (a0 & s1 & o2 & o3 & Hm & H & Ho').
    destruct (dict_del (cars_before_ramp s) k) as [d|] eqn:Hd;
      [|discriminate].
    cbv [put] in Hm. injection Hm as <- <- <-.
    destruct (IH _ _ _ _ H) as (Hoo & Ht & Hw & Hs & Hn & Hnd & Hv).
    subst. simpl in *.
    split; [reflexivity|]. do 4 (split; [assumption|]). split.
    + intro Hnd0. assert (Hnd1 : NoDup (dict_keys d))
        by (eapply dict_del_nodup; eassumption).
      destruct (Hnd Hnd1) as [Hnd2 Hin2]. split; [exact Hnd2|].
      intros v [<-|Hin]; [|apply Hin2; exact Hin].
      destruct (in_dec String.string_dec k rest) as [Hk|Hk];
        [apply Hin2; exact Hk|].
      rewrite (Hv k Hk). simpl. exact (dict_del_get_self _ k d Hnd0 Hd).
    + intros v Hnot. rewrite Hv; [|intro; apply Hnot; right; assumption].
      simpl. eapply dict_del_get_other; [eassumption|].
      intros ->. apply Hnot. left; reflexivity.
Qed.

Lemma ramp_delete_some ks s :
  NoDup ks ->
  (forall k, In k ks -> dict_get (cars_before_ramp s) k <> None) ->
  exists r, ramp_delete ks s = Some r.
Proof.
  revert s. induction ks as [|k rest IH]; intros s Hnd Hk;
    cbn [ramp_delete]; [eexists; reflexivity|].
  inversion Hnd as [|? ? Hnin Hnd']; subst.
  destruct (dict_del_some _ _ (Hk k (or_introl eq_refl))) as [d Hd].
  destruct (IH (set_ramp_registry d s) Hnd') as [[[u s2] o2] E].
  { intros k' Hk'. simpl. intro Hn.
    assert (Hne : k <> k') by (intros ->; contradiction).
    apply (Hk k' (or_intror Hk')).
    rewrite <- (dict_del_get_other _ _ _ _ Hd Hne). exact Hn. }
  cbv [bind get put]. rewrite Hd. cbv [bind] in E.
  rewrite E. eexists; reflexivity.
Qed.

Lemma ramp_car_inv sim car s u s' o :
  ramp_car sim car s = Some (u, s', o) ->
  cars_waiting_for_toll s' = cars_waiting_for_toll s /\
  toll_wait_time s' = toll_wait_time s /\
  tl_state s' = tl_state s /\ rng s' = rng s /\
  Forall (fun c => is_tls_cmd c = false) o /\
  (NoDup (dict_keys (cars_before_ramp s)) ->
   NoDup (dict_keys (cars_before_ramp s'))) /\
  (forall v, dict_mem (cars_before_ramp s') v = true ->
   dict_mem (cars_before_ramp s) v = true \/ v = fst car) /\
  (forall v, fst car <> v ->
   dict_get (cars_before_ramp s') v = dict_get (cars_before_ramp s) v
   /\ for_veh v o = []).
Proof.
  destruct car as [veh pos]. unfold ramp_car. intro H. simpl fst.
  destruct (qltb RAMP_METER_AREA pos).
  2:{ cbv [ret] in H. injection H as <- <- <-. repeat split; auto. }
  cbv [bind get ret put setColor getColor setLaneChangeMode] in H.
  destruct (negb (dict_mem (cars_waiting_for_toll s) veh)).
  2:{ injection H as <- <- <-. repeat split; auto. }
  injection H as <- <- <-. simpl.
  do 4 (split; [reflexivity|]).
  split; [repeat constructor|]. split; [apply dict_set_nodup|].
  split.
  - intros v Hv. apply dict_mem_set in Hv. destruct Hv as [->|Hv]; auto.
  - intros v Hne. split; [apply dict_get_set_other; exact Hne|].
    unfold for_veh; simpl.
    apply String.eqb_neq in Hne. rewrite String.eqb_sym, Hne. reflexivity.
Qed.

Lemma ramp_car_some sim car s : exists r, ramp_car sim car s = Some r.
Proof.
  destruct car as [veh pos]. unfold ramp_car.
  destruct (qltb RAMP_METER_AREA pos); [|eexists; reflexivity].
  cbv [bind get ret put setColor getColor setLaneChangeMode].
  destruct (negb (dict_mem (cars_waiting_for_toll s) veh));
    eexists; reflexivity.
Qed.

Lemma ramp_cars_inv sim cars s u s' o :
  ramp_cars sim cars s = Some (u, s', o) ->
  cars_waiting_for_toll s' = cars_waiting_for_toll s /\
  toll_wait_time s' = toll_wait_time s /\
  tl_state s' = tl_state s /\ rng s' = rng s /\
  Forall (fun c => is_tls_cmd c = false) o /\
  (NoDup (dict_keys (cars_before_ramp s)) ->
   NoDup (dict_keys (cars_before_ramp s'))) /\
  (forall v, dict_mem (cars_before_ramp s') v = true ->
   dict_mem (cars_before_ramp s) v = true \/ exists pos, In (v, pos) cars) /\
  (forall v, (forall pos, ~ In (v, pos) cars) ->
   dict_get (cars_before_ramp s') v = dict_get (cars_before_ramp s) v
   /\ for_veh v o = []).
Proof.
  revert s u s' o.
  induction cars as [|car rest IH]; intros s u s' o H; simpl in H.
  - injection H as <- <- <-. repeat split; auto.
  - binv H. subst o.
    destruct (ramp_car_inv _ _ _ _ _ _ Hm)
      as (Ht1 & Hw1 & Hs1 & Hn1 & Hf1 & Hd1 & Hk1 & Hv1).
    destruct (IH _ _ _ _ H) as (Ht2 & Hw2 & Hs2 & Hn2 & Hf2 & Hd2 & Hk2 & Hv2).
    do 4 (split; [congruence|]).
    split; [apply Forall_app; split; assumption|].
    split; [auto|]. split.
    + intros v Hv. destruct (Hk2 v Hv) as [Hv1'|(pos & Hin)].
      * destruct (Hk1 v Hv1') as [Hv2'| ->]; [left; exact Hv2'|].
        right. exists (snd car). left. destruct car; reflexivity.
      * right. exists pos. right; exact Hin.
    + intros v Hv.
      assert (Hne : fst car <> v).
      { intros <-. apply (Hv (snd car)). left. destruct car; reflexivity. }
      destruct (Hv1 v Hne) as [Hg1 Ho1].
      destruct (Hv2 v) as [Hg2 Ho2].
      { intros pos Hin. apply (Hv pos). right; exact Hin. }
      split; [congruence|]. rewrite for_veh_app, Ho1, Ho2. reflexivity.
Qed.

Lemma ramp_cars_some sim cars s : exists r, ramp_cars sim cars s = Some r.
Proof.
  revert s. induction cars as [|car rest IH]; intro s; simpl;
    [eexists; reflexivity|].
  destruct (ramp_car_some sim car s) as [[[u s1] o1] E].
  destruct (IH s1) as [[[u2 s2] o2] E2].
  unfold bind. rewrite E, E2. eexists; reflexivity.
Qed.

Lemma ramp_lanes_inv sim lanes s u s' o :
  ramp_lanes sim lanes s = Some (u, s', o) ->
  cars_waiting_for_toll s' = cars_waiting_for_toll s /\
  toll_wait_time s' = toll_wait_time s /\
  tl_state s' = tl_state s /\ rng s' = rng s /\
  Forall (fun c => is_tls_cmd c = false) o /\
  (NoDup (dict_keys (cars_before_ramp s)) ->
   NoDup (dict_keys (cars_before_ramp s'))) /\
  (forall v, dict_mem (cars_before_ramp s') v = true ->
   dict_mem (cars_before_ramp s) v = true \/
   get_edge sim v = EDGE_BEFORE_RAMP_METER) /\
  (forall v, get_edge sim v <> EDGE_BEFORE_RAMP_METER ->
   dict_get (cars_before_ramp s') v = dict_get (cars_before_ramp s) v
   /\ for_veh v o = []).
Proof.
  revert s u s' o.
  induction lanes as [|lane rest IH]; intros s u s' o H; simpl in H.
  - injection H as <- <- <-. repeat split; auto.
  - binv H. subst o.
    destruct (ramp_cars_inv _ _ _ _ _ _ Hm)
      as (Ht1 & Hw1 & Hs1 & Hn1 & Hf1 & Hd1 & Hk1 & Hv1).
    destruct (IH _ _ _ _ H) as (Ht2 & Hw2 & Hs2 & Hn2 & Hf2 & Hd2 & Hk2 & Hv2).
    do 4 (split; [congruence|]).
    split; [apply Forall_app; split; assumption|].
    split; [auto|]. split.
    + intros v Hv. destruct (Hk2 v Hv) as [Hv1'|He]; [|right; exact He].
      destruct (Hk1 v Hv1') as [Hv2'|(pos & Hin)]; [left; exact Hv2'|].
      right. eapply edge_dict_edge. exact Hin.
    + intros v Hv.
      destruct (Hv1 v) as [Hg1 Ho1].
      { intros pos Hin. apply Hv. eapply edge_dict_edge. exact Hin. }
      destruct (Hv2 v Hv) as [Hg2 Ho2].
      split; [congruence|]. rewrite for_veh_app, Ho1, Ho2. reflexivity.
Qed.

Lemma ramp_lanes_some sim lanes s : exists r, ramp_lanes sim lanes s = Some r.
Proof.
  revert s. induction lanes as [|lane rest IH]; intro s; simpl;
    [eexists; reflexivity|].
  destruct (ramp_cars_some sim (edge_dict sim EDGE_BEFORE_RAMP_METER lane) s)
    as [[[u s1] o1] E].
  destruct (IH s1) as [[[u2 s2] o2] E2].
  unfold bind. rewrite E, E2. eexists; reflexivity.
Qed.

Lemma ramp_step_inv sim s u s' o :
  ramp_meter_lane_change_control sim s = Some (u, s', o) ->
  exists left s1 o1 s2 o2 o3,
    ramp_release sim (dict_keys (cars_before_ramp s)) s = Some (left, s1, o1) /\
    ramp_delete left s1 = Some (tt, s2, o2) /\
    ramp_lanes sim (seq 0 NUM_RAMP_METERS) s2 = Some (tt, s', o3) /\
    o = o1 ++ o2 ++ o3.
Proof.
  unfold ramp_meter_lane_change_control. intro H.
  apply bind_inv in H; destruct H as (a & s0 & o0 & oa & Hm & H & Ho).
  cbv [get] in Hm. injection Hm as <- <- <-.
  apply bind_inv in H; destruct H as (left & s1 & o1 & ob & H1 & H & Ho1).
  apply bind_inv in H; destruct H as (v & s2 & o2 & o3 & H2 & H3 & Ho2).
  destruct v, u.
  exists left, s1, o1, s2, o2, o3. subst. auto.
Qed.

Lemma ramp_step_some sim s :
  NoDup (dict_keys (cars_before_ramp s)) ->
  exists r, ramp_meter_lane_change_control sim s = Some r.
Proof.
  intro Hnd.
  destruct (ramp_release_some sim (dict_keys (cars_before_ramp s)) s)
    as [[[left s1] o1] E1].
  { intros k Hk. destruct (dict_keys_get _ _ Hk) as [e ->]. discriminate. }
  destruct (ramp_release_inv _ _ _ _ _ _ E1) as (Hr1 & _ & _ & _ & _ & _ & Hl & _).
  destruct (ramp_delete_some left s1) as [[[u s2] o2] E2].
  { rewrite Hl. apply NoDup_filter. exact Hnd. }
  { intros k Hk. rewrite Hl in Hk. apply filter_In in Hk. destruct Hk as [Hk _].
    rewrite Hr1. destruct (dict_keys_get _ _ Hk) as [e ->]. discriminate. }
  destruct (ramp_lanes_some sim (seq 0 NUM_RAMP_METERS) s2) as [[[u3 s3] o3] E3].
  unfold ramp_meter_lane_change_control. cbv [bind get].
  rewrite E1. cbv [bind] in E2. rewrite E2. destruct u. cbv [bind] in E3.
  rewrite E3. eexists; reflexivity.
Qed.

Lemma lights_repeat_G n : lights_ok (repeat "G"%string n).
Proof.
  apply Forall_forall. intros x Hx. apply repeat_spec in Hx. left; exact Hx.
Qed.

Lemma toll_step_more sim sim_step gauss s out s' o :
  apply_toll_bridge_control sim sim_step gauss s = Some (out, s', o) ->
  cars_before_ramp s' = cars_before_ramp s /\
  length (toll_wait_time s') = length (toll_wait_time s) /\
  (Forall (fun w => -1 <= w) (toll_wait_time s) ->
   Forall (fun w => -1 <= w) (toll_wait_time s')) /\
  (NoDup (dict_keys (cars_waiting_for_toll s)) ->
   NoDup (dict_keys (cars_waiting_for_toll s'))) /\
  tl_state s' = out /\ String.length out = NUM_TOLL_LANES.
Proof.
  intro H. destruct (toll_step_inv _ _ _ _ _ _ _ H)
    as (left & s1 & o1 & s2 & o2 & st & s3 & o3 & H1 & H2 & H3 & Hout & Hfin).
  destruct (toll_release_more _ _ _ _ _ _ _ _ H1) as (Hr1 & Hl1 & Hb1).
  destruct (toll_release_inv _ _ _ _ _ _ _ _ H1) as (Hreg1 & _).
  destruct (toll_delete_more _ _ _ _ _ H2) as (Hr2 & Hw2).
  destruct (toll_delete_inv _ _ _ _ _ H2) as (_ & _ & Hd2 & _).
  destruct (toll_lanes_more _ _ _ _ _ _ _ H3) as (Hr3 & Hl3 & Hb3 & Hs3 & _).
  destruct (toll_lanes_inv _ _ _ _ _ _ _ H3) as (Ht3 & _ & Hlo3 & Hn3 & _).
  assert (Hlen : String.length out = NUM_TOLL_LANES).
  { destruct (Hlo3 (lights_repeat_G NUM_TOLL_LANES)) as [Hok Hlst].
    rewrite Hout, concat_light_length by exact Hok. rewrite Hlst.
    apply repeat_length. }
  assert (Hs' : cars_before_ramp s' = cars_before_ramp s3 /\
                toll_wait_time s' = toll_wait_time s3 /\
                cars_waiting_for_toll s' = cars_waiting_for_toll s3 /\
                tl_state s' = out).
  { destruct (String.eqb_spec out (tl_state s3)) as [Heq|Hne];
      destruct Hfin as [-> _]; auto. }
  destruct Hs' as (Hr' & Hw' & Hc' & Ht').
  split; [congruence|]. split; [rewrite Hw', Hl3, Hw2; exact Hl1|].
  split; [intro Hf; rewrite Hw'; apply Hb3; rewrite Hw2; apply Hb1; exact Hf|].
  split; [|split; assumption].
  intro Hnd. rewrite Hc'. apply Hn3. rewrite Hreg1 in Hd2. apply Hd2. exact Hnd.
Qed.

Lemma toll_step_none_iff sim sim_step gauss s :
  NoDup (dict_keys (cars_waiting_for_toll s)) ->
  length (toll_wait_time s) = NUM_TOLL_LANES ->
  (apply_toll_bridge_control sim sim_step gauss s = None <->
   exists v, In v (dict_keys (cars_waiting_for_toll s)) /\
             get_edge sim v = EDGE_AFTER_TOLL /\
             (NUM_TOLL_LANES <= get_lane sim v)%nat).
Proof.
  intros Hnd Hlen.
  assert (Hreg : forall k, In k (dict_keys (cars_waiting_for_toll s)) ->
                 dict_get (cars_waiting_for_toll s) k <> None).
  { intros k Hk. destruct (dict_keys_get _ _ Hk) as [e ->]. discriminate. }
  split.
  - intro Hnone.
    destruct (existsb (fun v => String.eqb (get_edge sim v) EDGE_AFTER_TOLL
                                && Nat.leb NUM_TOLL_LANES (get_lane sim v))
                      (dict_keys (cars_waiting_for_toll s))) eqn:Ex.
    + apply existsb_exists in Ex. destruct Ex as (v & Hv & Hb).
      apply andb_true_iff in Hb. destruct Hb as [He Hl].
      apply String.eqb_eq in He. apply Nat.leb_le in Hl. eauto.
    + exfalso.
      assert (Hgood : forall k, In k (dict_keys (cars_waiting_for_toll s)) ->
                get_edge sim k = EDGE_AFTER_TOLL ->
                (get_lane sim k < length (toll_wait_time s))%nat).
      { intros k Hk He. rewrite Hlen.
        destruct (Nat.leb_spec NUM_TOLL_LANES (get_lane sim k)) as [Hge|Hlt];
          [|exact Hlt].
        assert (Hx : existsb (fun v => String.eqb (get_edge sim v) EDGE_AFTER_TOLL
                     && Nat.leb NUM_TOLL_LANES (get_lane sim v))
                     (dict_keys (cars_waiting_for_toll s)) = true).
        { apply existsb_exists. exists k. split; [exact Hk|].
          rewrite He, String.eqb_refl, andb_true_l. apply Nat.leb_le. exact Hge. }
        congruence. }
      destruct (toll_release_some sim sim_step gauss
                  (dict_keys (cars_waiting_for_toll s)) s) as [[[left s1] o1] E1].
      { intros k Hk. split; [apply Hreg; exact Hk|apply Hgood; exact Hk]. }
      destruct (toll_release_inv _ _ _ _ _ _ _ _ E1) as (Hr1 & _ & _ & Hl & _).
      destruct (toll_release_more _ _ _ _ _ _ _ _ E1) as (_ & Hl1 & _).
      destruct (toll_delete_some left s1) as [[[u s2] o2] E2].
      { rewrite Hl. apply NoDup_filter. exact Hnd. }
      { intros k Hk. rewrite Hl in Hk. apply filter_In in Hk.
        destruct Hk as [Hk _]. rewrite Hr1. apply Hreg. exact Hk. }
      destruct (toll_delete_more _ _ _ _ _ E2) as (_ & Hw2).
      destruct (toll_lanes_some sim (seq 0 NUM_TOLL_LANES)
                  (repeat "G"%string NUM_TOLL_LANES) s2) as [[[st s3] o3] E3].
      { intros lane Hin. apply in_seq in Hin. rewrite repeat_length, Hw2, Hl1.
        lia. }
      revert Hnone. unfold apply_toll_bridge_control. cbv [bind get].
      rewrite E1. cbv [bind] in E2. rewrite E2. destruct u. cbv [bind] in E3.
      rewrite E3.
      destruct (negb (String.eqb (String.concat "" st) (tl_state s3)));
        cbv [put setRedYellowGreenState ret]; discriminate.
  - intro Hbad. unfold apply_toll_bridge_control. cbv [bind get].
    rewrite toll_release_fails; [reflexivity|exact Hreg|].
    destruct Hbad as (v & Hv & He & Hl). exists v. rewrite Hlen. auto.
Qed.

Lemma concat_light_get (l : list string) j x :
  lights_ok l -> nth_error l j = Some x ->
  String.get j (String.concat "" l) = String.get 0 x.
Proof.
  revert j. induction l as [|y r IH]; intros j Hok Hj; [destruct j; discriminate|].
  inversion Hok as [|? ? Hy Hr]; subst.
  destruct r as [|z r'].
  - destruct j as [|j]; [|destruct j; discriminate].
    injection Hj as <-. reflexivity.
  - change (String.concat "" (y :: z :: r'))
      with (y ++ "" ++ String.concat "" (z :: r'))%string.
    destruct j as [|j].
    + injection Hj as <-. destruct Hy as [-> | ->]; reflexivity.
    + simpl in Hj. destruct Hy as [-> | ->]; simpl; apply IH; assumption.
Qed.

Lemma ramp_step_more sim s u s' o :
  ramp_meter_lane_change_control sim s = Some (u, s', o) ->
  cars_waiting_for_toll s' = cars_waiting_for_toll s /\
  toll_wait_time s' = toll_wait_time s /\
  tl_state s' = tl_state s /\ rng s' = rng s /\
  filter is_tls_cmd o = [] /\
  (NoDup (dict_keys (cars_before_ramp s)) ->
   NoDup (dict_keys (cars_before_ramp s'))).
Proof.
  intro H. destruct (ramp_step_inv _ _ _ _ _ H)
    as (left & s1 & o1 & s2 & o2 & o3 & H1 & H2 & H3 & ->).
  destruct (ramp_release_inv _ _ _ _ _ _ H1)
    as (Hr1 & Ht1 & Hw1 & Hs1 & Hn1 & Hf1 & _).
  destruct (ramp_delete_inv _ _ _ _ _ H2) as (-> & Ht2 & Hw2 & Hs2 & Hn2 & Hd2 & _).
  destruct (ramp_lanes_inv _ _ _ _ _ _ H3)
    as (Ht3 & Hw3 & Hs3 & Hn3 & Hf3 & Hnd3 & _).
  do 4 (split; [congruence|]). split.
  - rewrite !filter_app, (filter_tls_nil _ Hf1), (filter_tls_nil _ Hf3).
    reflexivity.
  - intro Hnd. apply Hnd3. rewrite Hr1 in Hd2. apply Hd2. exact Hnd.
Qed.

Lemma additional_command_inv sim sim_step gauss tb rm s d s' acts :
  additional_command sim sim_step gauss tb rm s = Some (d, s', acts) ->
  exists lc s1 o1 o2,
    build_edge_dict sim = Some (d, lc) /\
    (if tb then s1 = s /\ o1 = []
     else exists out,
       apply_toll_bridge_control sim sim_step gauss s = Some (out, s1, o1)) /\
    (if rm then s' = s1 /\ o2 = []
     else exists u, ramp_meter_lane_change_control sim s1 = Some (u, s', o2)) /\
    acts = map (fun v => ApplyLaneChange [v] [1%Z]) lc ++ map Traci (o1 ++ o2).
Proof.
  unfold additional_command. intro H.
  destruct (build_edge_dict sim) as [[d0 lc]|]; [|discriminate].
  cbv zeta in H.
  match type of H with
  | match ?m s with _ => _ end = _ =>
    destruct (m s) as [[[u s2] o]|] eqn:E; [|discriminate]
  end.
  injection H as <- <- <-.
  apply bind_inv in E; destruct E as (a & s1 & o1 & o2 & H1 & H2 & Ho).
  exists lc, s1, o1, o2. split; [reflexivity|]. split; [|split].
  - destruct tb; simpl in H1.
    + cbv [ret] in H1. injection H1 as <- <- <-. auto.
    + apply bind_inv in H1; destruct H1 as (out & s3 & o3 & o4 & H3 & H4 & Ho3).
      cbv [ret] in H4. injection H4 as <- <- <-. subst o1.
      rewrite app_nil_r. eauto.
  - destruct rm; simpl in H2.
    + cbv [ret] in H2. injection H2 as <- <- <-. auto.
    + destruct u. eauto.
  - subst o. reflexivity.
Qed.

Lemma additional_command_more sim sim_step gauss tb rm s d s' acts :
  additional_command sim sim_step gauss tb rm s = Some (d, s', acts) ->
  length (toll_wait_time s) = NUM_TOLL_LANES ->
  Forall (fun w => -1 <= w) (toll_wait_time s) ->
  NoDup (dict_keys (cars_waiting_for_toll s)) ->
  NoDup (dict_keys (cars_before_ramp s)) ->
  (tl_state s = ""%string \/ String.length (tl_state s) = NUM_TOLL_LANES) ->
  length (toll_wait_time s') = NUM_TOLL_LANES /\
  Forall (fun w => -1 <= w) (toll_wait_time s') /\
  NoDup (dict_keys (cars_waiting_for_toll s')) /\
  NoDup (dict_keys (cars_before_ramp s')) /\
  (tl_state s' = ""%string \/ String.length (tl_state s') = NUM_TOLL_LANES).
Proof.
  intros H Hl Hb Hn1 Hn2 Ht.
  destruct (additional_command_inv _ _ _ _ _ _ _ _ _ H)
    as (lc & s1 & o1 & o2 & _ & Htb & Hrm & _).
  assert (H1 : length (toll_wait_time s1) = NUM_TOLL_LANES /\
               Forall (fun w => -1 <= w) (toll_wait_time s1) /\
               NoDup (dict_keys (cars_waiting_for_toll s1)) /\
               NoDup (dict_keys (cars_before_ramp s1)) /\
               (tl_state s1 = ""%string \/
                String.length (tl_state s1) = NUM_TOLL_LANES)).
  { destruct tb.
    - destruct Htb as [-> _]. auto.
    - destruct Htb as [out Ht1].
      destruct (toll_step_more _ _ _ _ _ _ _ Ht1)
        as (Hr & Hl' & Hb' & Hn' & Hts & Hlen).
      split; [congruence|]. split; [auto|]. split; [auto|].
      split; [rewrite Hr; exact Hn2|]. right; congruence. }
  destruct H1 as (Hl1 & Hb1 & Hn11 & Hn21 & Ht1).
  destruct rm.
  - destruct Hrm as [-> _]. auto.
  - destruct Hrm as [u Hr].
    destruct (ramp_step_more _ _ _ _ _ Hr) as (Hc & Hw & Hts & _ & _ & Hnd).
    rewrite Hw, Hc, Hts. repeat split; auto.
Qed.

Lemma reachable_inv sim_step gauss color tb rm s :
  reachable sim_step gauss color tb rm s ->
  length (toll_wait_time s) = NUM_TOLL_LANES /\
  Forall (fun w => -1 <= w) (toll_wait_time s) /\
  NoDup (dict_keys (cars_waiting_for_toll s)) /\
  NoDup (dict_keys (cars_before_ramp s)) /\
  (tl_state s = ""%string \/ String.length (tl_state s) = NUM_TOLL_LANES).
Proof.
  induction 1 as [|sim s d s' acts _ IH Hstep].
  - unfold init_state.
    cbn [toll_wait_time cars_waiting_for_toll cars_before_ramp tl_state].
    split; [rewrite length_map, length_seq; reflexivity|].
    split; [|repeat split; (constructor || left; reflexivity)].
    apply Forall_forall. intros w Hw. apply in_map_iff in Hw.
    destruct Hw as (i & <- & _).
    apply Qle_trans with 0; [discriminate|apply Qabs_nonneg].
  - destruct IH as (Hl & Hb & Hn1 & Hn2 & Ht).
    eapply additional_command_more; eassumption.
Qed.

(** [NoDup] of a short list of literal strings. *)
Ltac nodup_tac :=
  cbn; repeat (apply NoDup_cons; [let H := fresh in
                                  intro H; repeat destruct H as [H|H];
                                  try discriminate; contradiction|]);
  apply NoDup_nil.

End EnvFacts.


(** ** Further properties of the Bay Bridge environment *)
Module EnvExtras.
Import BayBridge BayBridgeEnv BridgeScenarios BridgeFacts EnvFacts.

(** [additional_command], lines 99-115: building [self.edge_dict] raises
    (an [IndexError] on [self.edge_dict[edge][lane]]) exactly when some
    vehicle reports a lane index of [MAX_LANES] = 24 or more. *)
Theorem build_edge_dict_fails sim :
  build_edge_dict sim = None <->
  exists v, In v (get_ids sim) /\ (MAX_LANES <= get_lane sim v)%nat.
Proof.
  pose proof (build_edge_dict_spec sim) as H.
  destruct (build_edge_dict sim) as [[d lc]|].
  - split; [discriminate|]. intros (v & Hv & Hge).
    destruct H as (Hl & _). specialize (Hl v Hv). lia.
  - split; [intros _; exact H|reflexivity].
Qed.

(** [additional_command], lines 99-115: when the dictionary is built, the
    vehicles sent [apply_lane_change([veh_id], direction=[1])] are those on
    edge "124952171" in lane 1, in the order of [get_ids()]; every edge of
    [EDGE_LIST] and every edge holding a vehicle has [MAX_LANES] lanes, and
    lane [lane] of edge [edge] lists the pairs [(veh_id, pos)] of the
    vehicles on that edge and lane, in the order of [get_ids()]. *)
Theorem build_edge_dict_lookup sim d lc :
  build_edge_dict sim = Some (d, lc) ->
  lc = filter (fun v => String.eqb (get_edge sim v) "124952171"
                        && Nat.eqb (get_lane sim v) 1) (get_ids sim) /\
  forall edge,
    (In edge EDGE_LIST \/ exists v, In v (get_ids sim) /\ get_edge sim v = edge) ->
    exists lanes, ed_get d edge = Some lanes /\ length lanes = MAX_LANES /\
      forall lane, (lane < MAX_LANES)%nat ->
        nth lane lanes [] = edge_dict sim edge lane.
Proof.
  intro Hb. pose proof (build_edge_dict_spec sim) as H. rewrite Hb in H.
  destruct H as (_ & Hlc & Hinv). split; [exact Hlc|].
  intros edge Hedge. specialize (Hinv edge).
  destruct (ed_get d edge) as [lanes|].
  - exists lanes. destruct Hinv as (_ & Hl & Hn). auto.
  - exfalso. destruct Hinv as [Hk Hw]. destruct Hedge as [Hin|(v & Hv & He)].
    + assert (existsb (String.eqb edge) EDGE_LIST = true).
      { apply existsb_exists. exists edge. split; [exact Hin|apply String.eqb_refl]. }
      congruence.
    + exact (Hw v Hv He).
Qed.

Lemma build_edge_dict_lookup_witness :
  match build_edge_dict two_car_sim with
  | Some (d, lc) =>
    lc = filter (fun v => String.eqb (get_edge two_car_sim v) "124952171"
                          && Nat.eqb (get_lane two_car_sim v) 1)
                (get_ids two_car_sim) /\
    forall edge,
      (In edge EDGE_LIST \/
       exists v, In v (get_ids two_car_sim) /\ get_edge two_car_sim v = edge) ->
      exists lanes, ed_get d edge = Some lanes /\ length lanes = MAX_LANES /\
        forall lane, (lane < MAX_LANES)%nat ->
          nth lane lanes [] = edge_dict two_car_sim edge lane
  | None => False
  end.
Proof.
  destruct (build_edge_dict two_car_sim) as [[d lc]|] eqn:E.
  - exact (build_edge_dict_lookup two_car_sim d lc E).
  - vm_compute in E. discriminate.
Defined.

(** [ramp_meter_lane_change_control]: a step of the ramp-meter coordinator
    leaves the toll registry, the toll wait times, the light string and the
    random draws untouched, and sends no traffic-light command. *)
Theorem ramp_step_frame sim s u s' o :
  ramp_meter_lane_change_control sim s = Some (u, s', o) ->
  cars_waiting_for_toll s' = cars_waiting_for_toll s /\
  toll_wait_time s' = toll_wait_time s /\
  tl_state s' = tl_state s /\ rng s' = rng s /\
  filter is_tls_cmd o = [].
Proof.
  intro H. destruct (ramp_step_inv _ _ _ _ _ H)
    as (left & s1 & o1 & s2 & o2 & o3 & H1 & H2 & H3 & ->).
  destruct (ramp_release_inv _ _ _ _ _ _ H1) as (_ & Ht1 & Hw1 & Hs1 & Hn1 & Hf1 & _).
  destruct (ramp_delete_inv _ _ _ _ _ H2) as (-> & Ht2 & Hw2 & Hs2 & Hn2 & _).
  destruct (ramp_lanes_inv _ _ _ _ _ _ H3) as (Ht3 & Hw3 & Hs3 & Hn3 & Hf3 & _).
  do 4 (split; [congruence|]).
  rewrite !filter_app, (filter_tls_nil _ Hf1), (filter_tls_nil _ Hf3).
  reflexivity.
Qed.

Lemma ramp_step_frame_witness :
  match ramp_meter_lane_change_control (ramp_sim EDGE_BEFORE_RAMP_METER 90)
          (start_state [] (repeat 40 NUM_TOLL_LANES)) with
  | Some (u, s', o) =>
    cars_waiting_for_toll s'
      = cars_waiting_for_toll (start_state [] (repeat 40 NUM_TOLL_LANES)) /\
    toll_wait_time s'
      = toll_wait_time (start_state [] (repeat 40 NUM_TOLL_LANES)) /\
    tl_state s' = tl_state (start_state [] (repeat 40 NUM_TOLL_LANES)) /\
    rng s' = rng (start_state [] (repeat 40 NUM_TOLL_LANES)) /\
    filter is_tls_cmd o = []
  | None => False
  end.
Proof.
  destruct (ramp_meter_lane_change_control (ramp_sim EDGE_BEFORE_RAMP_METER 90)
              (start_state [] (repeat 40 NUM_TOLL_LANES)))
    as [[[u s'] o]|] eqn:E.
  - exact (ramp_step_frame _ _ _ _ _ E).
  - vm_compute in E. discriminate.
Defined.

(** [ramp_meter_lane_change_control] never raises when the registry has no
    duplicate key (as a Python dict): each released vehicle is in the
    registry when it is read and deleted, and the rest cannot fail. *)
Theorem ramp_step_total sim s :
  NoDup (dict_keys (cars_before_ramp s)) ->
  exists r, ramp_meter_lane_change_control sim s = Some r.
Proof. exact (ramp_step_some sim s). Qed.

Lemma ramp_step_total_witness :
  NoDup (dict_keys (cars_before_ramp
    (mkSt [] [("V1"%string, mkSaved 7 yellow)] (repeat 40 NUM_TOLL_LANES) ""
          (fun _ => yellow) 0))) /\
  exists r, ramp_meter_lane_change_control (ramp_sim EDGE_AFTER_RAMP_METER 5)
    (mkSt [] [("V1"%string, mkSaved 7 yellow)] (repeat 40 NUM_TOLL_LANES) ""
          (fun _ => yellow) 0) = Some r.
Proof.
  split; [nodup_tac|].
  apply ramp_step_total. nodup_tac.
Defined.

(** [ramp_meter_lane_change_control]: every registered vehicle seen on the
    edge after the ramp meter gets exactly its saved color and lane-change
    mode back, and after the step no registered vehicle is on that edge;
    the registry keeps distinct keys. *)
Theorem ramp_restore_on_exit sim s u s' o :
  NoDup (dict_keys (cars_before_ramp s)) ->
  ramp_meter_lane_change_control sim s = Some (u, s', o) ->
  NoDup (dict_keys (cars_before_ramp s')) /\
  (forall v e, dict_get (cars_before_ramp s) v = Some e ->
   get_edge sim v = EDGE_AFTER_RAMP_METER ->
   for_veh v o = [SetColor v (color e); SetLaneChangeMode v (lane_change_mode e)]) /\
  (forall v, dict_mem (cars_before_ramp s') v = true ->
   get_edge sim v <> EDGE_AFTER_RAMP_METER).
Proof.
  intros Hnd H. destruct (ramp_step_inv _ _ _ _ _ H)
    as (left & s1 & o1 & s2 & o2 & o3 & H1 & H2 & H3 & ->).
  destruct (ramp_release_inv _ _ _ _ _ _ H1)
    as (Hr1 & _ & _ & _ & _ & _ & Hl & Hv1 & Hk1).
  destruct (ramp_delete_inv _ _ _ _ _ H2) as (-> & _ & _ & _ & _ & Hd2 & Ho2).
  destruct (ramp_lanes_inv _ _ _ _ _ _ H3) as (_ & _ & _ & _ & _ & Hn3 & Hm3 & Hv3).
  rewrite Hr1 in Hd2. destruct (Hd2 Hnd) as [Hnd2 Hgone].
  assert (Hba : EDGE_BEFORE_RAMP_METER <> EDGE_AFTER_RAMP_METER) by discriminate.
  split; [apply Hn3; exact Hnd2|]. split.
  - intros v e Hg He.
    assert (Hin : In v (dict_keys (cars_before_ramp s)))
      by (eapply dict_get_keys; exact Hg).
    rewrite !for_veh_app, (Hk1 v e Hnd Hin Hg), He, String.eqb_refl. simpl.
    destruct (Hv3 v) as [_ ->]; [rewrite He; intro Hx; apply Hba; symmetry; exact Hx|].
    simpl. rewrite ?app_nil_r. reflexivity.
  - intros v Hv He.
    destruct (Hm3 v Hv) as [Hv2|Hb]; [|rewrite He in Hb; apply Hba; symmetry; exact Hb].
    unfold dict_mem in Hv2.
    destruct (in_dec String.string_dec v left) as [Hin|Hnin].
    + rewrite (Hgone v Hin) in Hv2. discriminate.
    + rewrite (Ho2 v Hnin), Hr1 in Hv2.
      destruct (dict_get (cars_before_ramp s) v) as [e|] eqn:Hg; [|discriminate].
      apply Hnin. rewrite Hl. apply filter_In. split.
      * eapply dict_get_keys; exact Hg.
      * rewrite He. apply String.eqb_refl.
Qed.

Lemma ramp_restore_on_exit_witness :
  match ramp_meter_lane_change_control (ramp_sim EDGE_AFTER_RAMP_METER 5)
          (mkSt [] [("V1"%string, mkSaved 7 yellow)] (repeat 40 NUM_TOLL_LANES)
                "" (fun _ => yellow) 0) with
  | Some (u, s', o) =>
    NoDup (dict_keys (cars_before_ramp s')) /\
    (forall v e, dict_get [("V1"%string, mkSaved 7 yellow)] v = Some e ->
     get_edge (ramp_sim EDGE_AFTER_RAMP_METER 5) v = EDGE_AFTER_RAMP_METER ->
     for_veh v o = [SetColor v (color e);
                    SetLaneChangeMode v (lane_change_mode e)]) /\
    (forall v, dict_mem (cars_before_ramp s') v = true ->
     get_edge (ramp_sim EDGE_AFTER_RAMP_METER 5) v <> EDGE_AFTER_RAMP_METER)
  | None => False
  end.
Proof.
  destruct (ramp_meter_lane_change_control (ramp_sim EDGE_AFTER_RAMP_METER 5)
              (mkSt [] [("V1"%string, mkSaved 7 yellow)]
                    (repeat 40 NUM_TOLL_LANES) "" (fun _ => yellow) 0))
    as [[[u s'] o]|] eqn:E.
  - refine (ramp_restore_on_exit _ _ _ _ _ _ E). nodup_tac.
  - vm_compute in E. discriminate.
Defined.

(** [_apply_toll_bridge_control] never changes the ramp-meter registry
    [self.cars_before_ramp]. *)
Theorem toll_step_keeps_ramp_registry sim sim_step gauss s out s' o :
  apply_toll_bridge_control sim sim_step gauss s = Some (out, s', o) ->
  cars_before_ramp s' = cars_before_ramp s.
Proof. intro H. apply (toll_step_more _ _ _ _ _ _ _ H). Qed.

Lemma toll_step_keeps_ramp_registry_witness :
  match apply_toll_bridge_control two_car_sim (1#10) (fun _ => 1) waiting_state
  with
  | Some (out, s', o) => cars_before_ramp s' = cars_before_ramp waiting_state
  | None => False
  end.
Proof.
  destruct (apply_toll_bridge_control two_car_sim (1#10) (fun _ => 1)
              waiting_state) as [[[out s'] o]|] eqn:E.
  - exact (toll_step_keeps_ramp_registry _ _ _ _ _ _ _ E).
  - vm_compute in E. discriminate.
Defined.

(** [_apply_toll_bridge_control], with a registry of distinct keys and the
    [NUM_TOLL_LANES] wait times set by [__init__], raises exactly when a
    registered vehicle is seen on the edge after the toll in a lane of
    index [NUM_TOLL_LANES] or more ([self.toll_wait_time[lane]] is then out
    of range); nothing else in the step can fail. *)
Theorem toll_step_fails_iff sim sim_step gauss s :
  NoDup (dict_keys (cars_waiting_for_toll s)) ->
  length (toll_wait_time s) = NUM_TOLL_LANES ->
  (apply_toll_bridge_control sim sim_step gauss s = None <->
   exists v, In v (dict_keys (cars_waiting_for_toll s)) /\
             get_edge sim v = EDGE_AFTER_TOLL /\
             (NUM_TOLL_LANES <= get_lane sim v)%nat).
Proof. exact (toll_step_none_iff sim sim_step gauss s). Qed.

Lemma toll_step_fails_iff_witness :
  NoDup (dict_keys (cars_waiting_for_toll waiting_state)) /\
  length (toll_wait_time waiting_state) = NUM_TOLL_LANES /\
  (apply_toll_bridge_control
     (toll_sim ["V2"%string] (fun _ => EDGE_AFTER_TOLL) 21 (fun _ => 5%Q))
     (1#10) (fun _ => 1) waiting_state = None <->
   exists v, In v (dict_keys (cars_waiting_for_toll waiting_state)) /\
     get_edge (toll_sim ["V2"%string] (fun _ => EDGE_AFTER_TOLL) 21
                        (fun _ => 5%Q)) v = EDGE_AFTER_TOLL /\
     (NUM_TOLL_LANES <= get_lane (toll_sim ["V2"%string]
                          (fun _ => EDGE_AFTER_TOLL) 21 (fun _ => 5%Q)) v)%nat).
Proof.
  split; [nodup_tac|]. split; [reflexivity|].
  apply toll_step_fails_iff; [nodup_tac|reflexivity].
Defined.

(** [_apply_toll_bridge_control]: after a step (from a registry of distinct
    keys) no registered vehicle is on the edge after the toll, and every
    registered vehicle was registered before or is on the approach edge
    past [TOLL_BOOTH_AREA]. *)
Theorem toll_registry_after_step sim sim_step gauss s out s' o :
  NoDup (dict_keys (cars_waiting_for_toll s)) ->
  apply_toll_bridge_control sim sim_step gauss s = Some (out, s', o) ->
  forall v, dict_mem (cars_waiting_for_toll s') v = true ->
  get_edge sim v <> EDGE_AFTER_TOLL /\
  (dict_mem (cars_waiting_for_toll s) v = true \/
   (get_edge sim v = EDGE_BEFORE_TOLL /\ TOLL_BOOTH_AREA < get_position sim v)).
Proof.
  intros Hnd H v Hv.
  destruct (toll_step_inv _ _ _ _ _ _ _ H)
    as (left & s1 & o1 & s2 & o2 & st & s3 & o3 & H1 & H2 & H3 & Hout & Hfin).
  destruct (toll_release_inv _ _ _ _ _ _ _ _ H1) as (Hr1 & _ & _ & Hl & _).
  destruct (toll_delete_inv _ _ _ _ _ H2) as (_ & _ & Hd2 & Ho2).
  destruct (toll_lanes_more _ _ _ _ _ _ _ H3) as (_ & _ & _ & _ & Hk3 & _).
  assert (Hc' : cars_waiting_for_toll s' = cars_waiting_for_toll s3).
  { destruct (String.eqb out (tl_state s3)); destruct Hfin as [-> _];
      reflexivity. }
  rewrite Hc' in Hv.
  assert (Hba : EDGE_BEFORE_TOLL <> EDGE_AFTER_TOLL) by discriminate.
  destruct (Hk3 v Hv) as [Hv2|[Hb Hp]].
  2:{ split; [rewrite Hb; exact Hba|right; split; assumption]. }
  rewrite Hr1 in Hd2. destruct (Hd2 Hnd) as [_ Hgone].
  unfold dict_mem in Hv2.
  destruct (in_dec String.string_dec v left) as [Hin|Hnin].
  - rewrite (Hgone v Hin) in Hv2. discriminate.
  - rewrite (Ho2 v Hnin), Hr1 in Hv2.
    destruct (dict_get (cars_waiting_for_toll s) v) as [e|] eqn:Hg;
      [|discriminate].
    split.
    + intro He. apply Hnin. rewrite Hl. apply filter_In. split.
      * eapply dict_get_keys; exact Hg.
      * rewrite He. apply String.eqb_refl.
    + left. unfold dict_mem. rewrite Hg. reflexivity.
Qed.

Lemma toll_registry_after_step_witness :
  match apply_toll_bridge_control two_car_sim (1#10) (fun _ => 1) waiting_state
  with
  | Some (out, s', o) =>
    forall v, dict_mem (cars_waiting_for_toll s') v = true ->
    get_edge two_car_sim v <> EDGE_AFTER_TOLL /\
    (dict_mem (cars_waiting_for_toll waiting_state) v = true \/
     (get_edge two_car_sim v = EDGE_BEFORE_TOLL /\
      TOLL_BOOTH_AREA < get_position two_car_sim v))
  | None => False
  end.
Proof.
  destruct (apply_toll_bridge_control two_car_sim (1#10) (fun _ => 1)
              waiting_state) as [[[out s'] o]|] eqn:E.
  - refine (toll_registry_after_step _ _ _ _ _ _ _ _ E). nodup_tac.
  - vm_compute in E. discriminate.
Defined.

(** [_apply_toll_bridge_control]: the light of toll lane [j] is green
    ("G") whenever no vehicle on the approach edge in lane [j] is more than
    120 along it; a red light needs such a vehicle. *)
Theorem toll_green_without_car_past_120 sim sim_step gauss s out s' o j :
  apply_toll_bridge_control sim sim_step gauss s = Some (out, s', o) ->
  (j < NUM_TOLL_LANES)%nat ->
  (forall v pos, In (v, pos) (edge_dict sim EDGE_BEFORE_TOLL j) -> pos <= 120) ->
  String.get j out = Some "G"%char.
Proof.
  intros H Hj Hcars.
  destruct (toll_step_inv _ _ _ _ _ _ _ H)
    as (left & s1 & o1 & s2 & o2 & st & s3 & o3 & H1 & H2 & H3 & Hout & _).
  destruct (toll_lanes_more _ _ _ _ _ _ _ H3) as (_ & _ & _ & _ & _ & Hn3).
  destruct (toll_lanes_inv _ _ _ _ _ _ _ H3) as (_ & _ & Hlo3 & _).
  destruct (Hlo3 (lights_repeat_G NUM_TOLL_LANES)) as [Hok _].
  assert (Hnth : nth_error st j = Some "G"%string).
  { rewrite Hn3.
    - apply nth_error_repeat. exact Hj.
    - intros lane _. destruct (Nat.eq_dec lane j) as [->|Hne];
        [right; exact Hcars|left; exact Hne]. }
  rewrite Hout, (concat_light_get _ _ _ Hok Hnth). reflexivity.
Qed.

Lemma toll_green_without_car_past_120_witness :
  match apply_toll_bridge_control two_car_sim (1#10) (fun _ => 1) waiting_state
  with
  | Some (out, s', o) => String.get 0 out = Some "G"%char
  | None => False
  end.
Proof.
  destruct (apply_toll_bridge_control two_car_sim (1#10) (fun _ => 1)
              waiting_state) as [[[out s'] o]|] eqn:E.
  - apply (toll_green_without_car_past_120 _ _ _ _ _ _ _ 0 E).
    + unfold NUM_TOLL_LANES. lia.
    + intros v pos H. vm_compute in H. destruct H.
  - vm_compute in E. discriminate.
Defined.

(** From [__init__] on, through any sequence of [additional_command]
    calls: [self.toll_wait_time] keeps [NUM_TOLL_LANES] entries, all at
    least -1; both registries keep distinct keys; and [self.tl_state] is
    either the initial "" or a string of [NUM_TOLL_LANES] lights. *)
Theorem reachable_invariant sim_step gauss color tb rm s :
  reachable sim_step gauss color tb rm s ->
  length (toll_wait_time s) = NUM_TOLL_LANES /\
  Forall (fun w => -1 <= w) (toll_wait_time s) /\
  NoDup (dict_keys (cars_waiting_for_toll s)) /\
  NoDup (dict_keys (cars_before_ramp s)) /\
  (tl_state s = ""%string \/ String.length (tl_state s) = NUM_TOLL_LANES).
Proof. exact (reachable_inv sim_step gauss color tb rm s). Qed.

Lemma reachable_invariant_witness :
  match additional_command two_car_sim 1 (fun _ => 0) false false
          (init_state 1 (fun _ => 0) (fun _ => yellow)) with
  | Some (_, s', _) =>
    reachable 1 (fun _ => 0) (fun _ => yellow) false false s' /\
    length (toll_wait_time s') = NUM_TOLL_LANES /\
    Forall (fun w => -1 <= w) (toll_wait_time s') /\
    NoDup (dict_keys (cars_waiting_for_toll s')) /\
    NoDup (dict_keys (cars_before_ramp s')) /\
    (tl_state s' = ""%string \/ String.length (tl_state s') = NUM_TOLL_LANES)
  | None => False
  end.
Proof.
  destruct (additional_command two_car_sim 1 (fun _ => 0) false false
              (init_state 1 (fun _ => 0) (fun _ => yellow)))
    as [[[d s'] acts]|] eqn:E.
  - split.
    + exact (reach_step _ _ _ _ _ _ _ _ _ _ (reach_init _ _ _ _ _) E).
    + exact (reachable_invariant _ _ _ _ _ _
               (reach_step _ _ _ _ _ _ _ _ _ _ (reach_init _ _ _ _ _) E)).
  - vm_compute in E. discriminate.
Defined.

(** In any state reached from [__init__], [additional_command] raises
    exactly when some vehicle reports a lane index of [MAX_LANES] or more,
    or the toll coordinator is enabled and a registered vehicle is on the
    edge after the toll in a lane of index [NUM_TOLL_LANES] or more; the
    ramp-meter coordinator never raises. *)
Theorem additional_command_fails sim_step gauss color tb rm s sim :
  reachable sim_step gauss color tb rm s ->
  (additional_command sim sim_step gauss tb rm s = None <->
   (exists v, In v (get_ids sim) /\ (MAX_LANES <= get_lane sim v)%nat) \/
   (tb = false /\
    exists v, In v (dict_keys (cars_waiting_for_toll s)) /\
              get_edge sim v = EDGE_AFTER_TOLL /\
              (NUM_TOLL_LANES <= get_lane sim v)%nat)).
Proof.
  intro Hr. destruct (reachable_inv _ _ _ _ _ _ Hr)
    as (Hl & _ & Hn1 & Hn2 & _).
  pose proof (build_edge_dict_spec sim) as Hb.
  unfold additional_command.
  destruct (build_edge_dict sim) as [[d lc]|].
  2:{ split; [intros _; left; exact Hb|reflexivity]. }
  assert (Hnb : ~ exists v, In v (get_ids sim) /\ (MAX_LANES <= get_lane sim v)%nat).
  { intros (v & Hv & Hge). destruct Hb as (Hlt & _). specialize (Hlt v Hv). lia. }
  cbv zeta.
  assert (Hramp : forall s1, NoDup (dict_keys (cars_before_ramp s1)) ->
            exists r, (if negb rm then ramp_meter_lane_change_control sim
                       else ret tt) s1 = Some r).
  { intros s1 Hs1. destruct rm; simpl.
    - eexists; reflexivity.
    - apply ramp_step_some. exact Hs1. }
  destruct tb; simpl.
  - destruct (Hramp s Hn2) as [[[u s2] o2] E]. unfold bind at 1.
    change (@ret unit tt s) with (Some (tt, s, @nil Cmd)). cbv beta iota.
    rewrite E. split; [discriminate|].
    intros [H|[H _]]; [contradiction|discriminate].
  - pose proof (toll_step_none_iff sim sim_step gauss s Hn1 Hl) as Hiff.
    unfold bind at 1. unfold bind at 1.
    destruct (apply_toll_bridge_control sim sim_step gauss s)
      as [[[out s1] o1]|] eqn:Et.
    + destruct (toll_step_more _ _ _ _ _ _ _ Et) as (Hr1 & _).
      destruct (Hramp s1 ltac:(rewrite Hr1; exact Hn2)) as [[[u s2] o2] E].
      change (@ret unit tt s1) with (Some (tt, s1, @nil Cmd)). cbv beta iota.
      rewrite E. split; [discriminate|].
      intros [H|[_ H]]; [contradiction|].
      apply Hiff in H. discriminate.
    + split; [intros _; right; split; [reflexivity|apply Hiff; reflexivity]|].
      reflexivity.
Qed.

Lemma additional_command_fails_witness :
  reachable 1 (fun _ => 0) (fun _ => yellow) false false
    (init_state 1 (fun _ => 0) (fun _ => yellow)) /\
  (additional_command two_car_sim 1 (fun _ => 0) false false
     (init_state 1 (fun _ => 0) (fun _ => yellow)) = None <->
   (exists v, In v (get_ids two_car_sim) /\
              (MAX_LANES <= get_lane two_car_sim v)%nat) \/
   (false = false /\
    exists v, In v (dict_keys (cars_waiting_for_toll
                      (init_state 1 (fun _ => 0) (fun _ => yellow)))) /\
              get_edge two_car_sim v = EDGE_AFTER_TOLL /\
              (NUM_TOLL_LANES <= get_lane two_car_sim v)%nat)).
Proof.
  split; [apply reach_init|].
  apply (additional_command_fails 1 (fun _ => 0) (fun _ => yellow)).
  apply reach_init.
Defined.

(** [additional_command] first issues one
    [apply_lane_change([veh_id], direction=[1])] per vehicle on edge
    "124952171" in lane 1, in the order of [get_ids()], then the traci
    commands of the coordinators.  With [disable_tb] the toll state and
    light string are untouched and no traffic-light command is sent; with
    [disable_ramp_metering] the ramp registry is untouched; with both, the
    state is unchanged and only the lane changes are issued. *)
Theorem additional_command_actions sim sim_step gauss tb rm s d s' acts :
  additional_command sim sim_step gauss tb rm s = Some (d, s', acts) ->
  exists o,
    acts = map (fun v => ApplyLaneChange [v] [1%Z])
             (filter (fun v => String.eqb (get_edge sim v) "124952171"
                               && Nat.eqb (get_lane sim v) 1) (get_ids sim))
           ++ map Traci o /\
    (tb = true ->
     cars_waiting_for_toll s' = cars_waiting_for_toll s /\
     toll_wait_time s' = toll_wait_time s /\
     tl_state s' = tl_state s /\ filter is_tls_cmd o = []) /\
    (rm = true -> cars_before_ramp s' = cars_before_ramp s) /\
    (tb = true -> rm = true -> s' = s /\ o = []).
Proof.
  intro H. destruct (additional_command_inv _ _ _ _ _ _ _ _ _ H)
    as (lc & s1 & o1 & o2 & Hb & Htb & Hrm & ->).
  pose proof (build_edge_dict_spec sim) as Hs. rewrite Hb in Hs.
  destruct Hs as (_ & -> & _).
  exists (o1 ++ o2). split; [reflexivity|].
  split; [|split].
  - intros ->. destruct Htb as [-> ->]. destruct rm.
    + destruct Hrm as [-> ->]. auto.
    + destruct Hrm as [u Hr].
      destruct (ramp_step_more _ _ _ _ _ Hr) as (Hc & Hw & Ht & _ & Hf & _).
      auto.
  - intros ->. destruct Hrm as [-> ->]. destruct tb.
    + destruct Htb as [-> ->]. reflexivity.
    + destruct Htb as [out Ht]. apply (toll_step_more _ _ _ _ _ _ _ Ht).
  - intros -> ->. destruct Htb as [-> ->]. destruct Hrm as [-> ->]. auto.
Qed.

Lemma additional_command_actions_witness :
  match additional_command
          (toll_sim ["V1"; "V2"]%string
             (fun v => if String.eqb v "V1" then "124952171"%string
                       else EDGE_BEFORE_TOLL) 1 (fun _ => 110))
          1 (fun _ => 0) true false
          (init_state 1 (fun _ => 0) (fun _ => yellow)) with
  | Some (d, s', acts) =>
    exists o,
      acts = map (fun v => ApplyLaneChange [v] [1%Z])
               (filter (fun v => String.eqb
                          (get_edge (toll_sim ["V1"; "V2"]%string
                             (fun v => if String.eqb v "V1"
                                       then "124952171"%string
                                       else EDGE_BEFORE_TOLL) 1
                             (fun _ => 110)) v) "124952171"
                        && Nat.eqb (get_lane (toll_sim ["V1"; "V2"]%string
                             (fun v => if String.eqb v "V1"
                                       then "124952171"%string
                                       else EDGE_BEFORE_TOLL) 1
                             (fun _ => 110)) v) 1)
                  ["V1"; "V2"]%string)
             ++ map Traci o /\
      (true = true ->
       cars_waiting_for_toll s' = cars_waiting_for_toll
         (init_state 1 (fun _ => 0) (fun _ => yellow)) /\
       toll_wait_time s' = toll_wait_time
         (init_state 1 (fun _ => 0) (fun _ => yellow)) /\
       tl_state s' = tl_state (init_state 1 (fun _ => 0) (fun _ => yellow)) /\
       filter is_tls_cmd o = []) /\
      (false = true -> cars_before_ramp s' = cars_before_ramp
         (init_state 1 (fun _ => 0) (fun _ => yellow))) /\
      (true = true -> false = true ->
       s' = init_state 1 (fun _ => 0) (fun _ => yellow) /\ o = [])
  | None => False
  end.
Proof.
  destruct (additional_command
              (toll_sim ["V1"; "V2"]%string
                 (fun v => if String.eqb v "V1" then "124952171"%string
                           else EDGE_BEFORE_TOLL) 1 (fun _ => 110))
              1 (fun _ => 0) true false
              (init_state 1 (fun _ => 0) (fun _ => yellow)))
    as [[[d s'] acts]|] eqn:E.
  - exact (additional_command_actions _ _ _ _ _ _ _ _ _ E).
  - vm_compute in E. discriminate.
Defined.


End EnvExtras.

